(** * ai-document-summarizer: extraction, upload, summarize and history

    A shallow embedding of the text-extraction helpers
    ([src/lib/fileExtractor.ts], the inline extraction of
    [DocumentSummarizer.handleFileSelect]), of the two API routes
    ([POST /api/upload], [POST /api/summarize]) and of
    [HistoryDashboard.deleteItem], with the properties the specification
    states about them.

    JavaScript strings are sequences of UTF-16 code units, so a string is a
    [list N]; [length], [substring] and the regular expression [\s] work on
    code units exactly as the engine does. *)

From Stdlib Require Import ZArith NArith List Bool Lia String Ascii.
From Stdlib Require Import DecimalString Floats.
From stdpp Require Import gmap list.
Import ListNotations.

Set Warnings "-register-all".
Local Open Scope nat_scope.

(** ** JavaScript strings *)

Module JS.

Definition jsstring := list N.

(** An ASCII literal of the source, as code units. *)
Definition lit (s : string) : jsstring :=
  List.map N_of_ascii (list_ascii_of_string s).

(** Line feed, used by the template literals ([\n]). *)
Definition LF : N := 10%N.
(** The double quote, which the highlight prompt contains. *)
Definition DQUOTE : N := 34%N.

(** [WhiteSpace] and [LineTerminator] of ECMAScript: the class [\s] of a
    regular expression and the characters [String.prototype.trim] strips. *)
Definition isWhiteSpace (c : N) : bool :=
  ((9 <=? c) && (c <=? 13) ||
   (c =? 32) || (c =? 160) || (c =? 5760) ||
   ((8192 <=? c) && (c <=? 8202)) ||
   (c =? 8232) || (c =? 8233) || (c =? 8239) || (c =? 8287) ||
   (c =? 12288) || (c =? 65279))%N.

Fixpoint trimStart (s : jsstring) : jsstring :=
  match s with
  | [] => []
  | c :: s' => if isWhiteSpace c then trimStart s' else s
  end.

Fixpoint trimEnd (s : jsstring) : jsstring :=
  match s with
  | [] => []
  | c :: s' =>
      match trimEnd s' with
      | [] => if isWhiteSpace c then [] else [c]
      | r => c :: r
      end
  end.

(** [s.trim()] *)
Definition trim (s : jsstring) : jsstring := trimEnd (trimStart s).

(** [s.substring(0, n)] for [0 <= n]. *)
Definition substring0 (n : nat) (s : jsstring) : jsstring := firstn n s.

(** [s.split(/\s+/)]: the pieces between the maximal runs of white space.
    [tok] is the piece being read, [inws] tells that the scan is inside a
    run of white space.  A leading or trailing run leaves an empty piece,
    and the empty string splits into one empty piece. *)
Fixpoint split_go (tok : jsstring) (inws : bool) (s : jsstring)
  : list jsstring :=
  match s with
  | [] => [tok]
  | c :: s' =>
      if isWhiteSpace c
      then (if inws then split_go [] true s'
            else tok :: split_go [] true s')
      else split_go (tok ++ [c]) false s'
  end.

Definition split_ws (s : jsstring) : list jsstring := split_go [] false s.

(** [word => word.length > 0] *)
Definition nonEmpty (w : jsstring) : bool := negb (Nat.eqb (length w) 0).

(** [s.split(/\s+/).filter(word => word.length > 0).length] *)
Definition countWords (s : jsstring) : nat :=
  length (List.filter nonEmpty (split_ws s)).

(** [s.split(/\s+/).length] *)
Definition countPieces (s : jsstring) : nat := length (split_ws s).

(** [!text || text.trim().length === 0] for a string [text]. *)
Definition isBlank (s : jsstring) : bool :=
  match s with
  | [] => true
  | _ => Nat.eqb (length (trim s)) 0
  end.

(** Truthiness of an optional string: [undefined], [null] and [''] are
    falsy. *)
Definition truthy (o : option jsstring) : bool :=
  match o with
  | Some (_ :: _) => true
  | _ => false
  end.

(** [String(n)] for an integer [n] in the safe range, where the engine
    prints plain decimal digits. *)
Definition Number_toString (n : Z) : jsstring :=
  lit (NilZero.string_of_int (Z.to_int n)).

(** [hay.includes(needle)], as a proposition. *)
Definition includes (hay needle : jsstring) : Prop :=
  exists pre post, hay = pre ++ needle ++ post.

(** [hay.includes(needle)], as a test that computes. *)
Fixpoint prefixb (needle hay : jsstring) : bool :=
  match needle, hay with
  | [], _ => true
  | x :: n', y :: h' => N.eqb x y && prefixb n' h'
  | _ :: _, [] => false
  end.

Fixpoint includesb (hay needle : jsstring) : bool :=
  prefixb needle hay ||
  match hay with
  | [] => false
  | _ :: h' => includesb h' needle
  end.

(** The number of words of a text as the specification words it: the
    maximal runs of characters that are not white space.  [prev_ws] tells
    that the previous character was white space (or that there is none). *)
Fixpoint count_runs (prev_ws : bool) (s : jsstring) : nat :=
  match s with
  | [] => 0
  | c :: s' =>
      if isWhiteSpace c then count_runs true s'
      else (if prev_ws then 1 else 0) + count_runs false s'
  end.

Definition tokens_spec (s : jsstring) : nat := count_runs true s.

End JS.

Import JS.

(** [a === b] on strings. *)
Fixpoint streq (a b : jsstring) : bool :=
  match a, b with
  | [], [] => true
  | x :: a', y :: b' => N.eqb x y && streq a' b'
  | _, _ => false
  end.

(** [text.length] *)
Definition jslength (s : jsstring) : N := N.of_nat (length s).

(** The cap on the extracted text and its marker:
    [if (text.length > 100000) text = text.substring(0, 100000) + '...'] *)
Definition MAX_CHARS : N := 100000%N.

Definition capText (text : jsstring) : jsstring :=
  if (MAX_CHARS <? jslength text)%N
  then substring0 (N.to_nat MAX_CHARS) text ++ lit "..."
  else text.

Definition DOCX : jsstring :=
  lit "application/vnd.openxmlformats-officedocument.wordprocessingml.document".
Definition TXT : jsstring := lit "text/plain".

(** What a handler throws: [new Error(message)]. *)
Inductive result (A : Type) : Type :=
| Ok (a : A)
| Throw (message : jsstring).
Arguments Ok {A} a.
Arguments Throw {A} message.

(** The browser's [File]: its name, declared media type and byte length,
    and the two UTF-8 decodings of its content the code asks for,
    [await file.text()] on the client and
    [Buffer.from(await file.arrayBuffer()).toString('utf-8')] on the
    server. *)
Module File.
Record t : Type := mk {
  name : jsstring;
  type : jsstring;
  size : N;
  text : jsstring;
  buffer_utf8 : jsstring
}.
End File.

(** ** src/lib/fileExtractor.ts *)

Module FileExtractor.

Record FileExtractionResult : Type := mkResult {
  text : jsstring;
  wordCount : nat;
  fileType : jsstring;
  fileName : jsstring;
  fileSize : N
}.

Definition extractTextFromFile (file : File.t) : result FileExtractionResult :=
  let fileType := File.type file in
  if streq fileType DOCX then
    Throw (lit "DOCX processing requires server-side extraction")
  else if streq fileType TXT then
    let text := File.text file in
    if isBlank text then
      Throw (lit "No text could be extracted from the file")
    else
      let text := capText text in
      let wordCount := countWords text in
      Ok {| text := text;
            wordCount := wordCount;
            fileType := fileType;
            fileName := File.name file;
            fileSize := File.size file |}
  else Throw (lit "Unsupported file type").

End FileExtractor.

(** ** The client-side branch of DocumentSummarizer.handleFileSelect *)

Module DocumentSummarizer.

Import FileExtractor.

(** The block guarded by [file.type === 'text/plain']: either it builds
    [extractionResult] and the handler returns, or the block is skipped or
    throws (the [catch] only logs) and the handler goes on to
    [POST /api/upload]. *)
Inductive ClientOutcome : Type :=
| Extracted (extractionResult : FileExtractionResult)
| ServerSide.

Definition handleFileSelect_client (file : File.t) : ClientOutcome :=
  if streq (File.type file) TXT then
    let text := File.text file in
    if isBlank text then ServerSide
    else
      let wordCount := countWords text in
      Extracted {| text := (if (MAX_CHARS <? jslength text)%N
                            then substring0 (N.to_nat MAX_CHARS) text ++ lit "..."
                            else text);
                   wordCount := wordCount;
                   fileType := File.type file;
                   fileName := File.name file;
                   fileSize := File.size file |}
  else ServerSide.

End DocumentSummarizer.

(** ** JSON values and responses of the API routes *)

Inductive json : Type :=
| JNull
| JBool (b : bool)
| JNumber (x : float)
| JString (s : jsstring)
| JArray (items : list json)
| JObject (members : list (jsstring * json)).

(** A value of a response field. *)
Inductive jsval : Type :=
| VStr (s : jsstring)
| VNum (n : Z)
| VBool (b : bool)
| VNull
| VJson (j : json).

(** [NextResponse.json(body, { status })]; the members of [body] in the
    order the object literal lists them. *)
Record Response : Type := mkResponse {
  status : Z;
  body : list (string * jsval)
}.

Definition json_ok (body : list (string * jsval)) : Response :=
  {| status := 200; body := body |}.

Definition json_error (message : string) (status : Z) : Response :=
  {| status := status; body := [("error"%string, VStr (lit message))] |}.

Definition field (name : string) (r : Response) : option jsval :=
  match List.find (fun kv => String.eqb (fst kv) name) (body r) with
  | Some kv => Some (snd kv)
  | None => None
  end.

Definition fields (r : Response) : list string := List.map fst (body r).

(** ** app/api/upload/route.ts *)

Module UploadRoute.

(** The multipart form: [data.get('file')] and [data.get('extractedText')]. *)
Record FormData : Type := mkForm {
  file : option File.t;
  extractedText : option jsstring
}.

Section Route.

(** [mammoth.extractRawText({ buffer })], [None] when the call throws. *)
Variable mammoth_extractRawText : File.t -> option jsstring.

(** [request] is [None] when [request.formData()] throws. *)
Definition POST (request : option FormData) : Response :=
  match request with
  | None => json_error "File upload failed" 500
  | Some data =>
    match extractedText data with
    | Some ((_ :: _) as extractedText) =>
        json_ok [("text"%string, VStr extractedText);
                 ("wordCount"%string, VNum (Z.of_nat (countWords extractedText)));
                 ("fileType"%string, VStr (lit "text/plain"));
                 ("fileName"%string, VStr (lit "document.txt"));
                 ("fileSize"%string, VNum 0)]
    | _ =>
      match file data with
      | None => json_error "No file uploaded" 400
      | Some file =>
        if negb (streq (File.type file) DOCX || streq (File.type file) TXT) then
          json_error "Invalid file type. Please upload DOCX or TXT files for server-side processing." 400
        else if (10 * 1024 * 1024 <? File.size file)%N then
          json_error "File too large" 400
        else
          let extracted :=
            if streq (File.type file) DOCX then mammoth_extractRawText file
            else if streq (File.type file) TXT then Some (File.buffer_utf8 file)
            else Some [] in
          match extracted with
          | None => json_error "Failed to extract text from file" 500
          | Some text =>
            if isBlank text then
              json_error "No text could be extracted from the file" 400
            else
              let text := capText text in
              let wordCount := countWords text in
              json_ok [("success"%string, VBool true);
                       ("text"%string, VStr text);
                       ("filename"%string, VStr (File.name file));
                       ("fileSize"%string, VNum (Z.of_N (File.size file)));
                       ("wordCount"%string, VNum (Z.of_nat wordCount))]
          end
      end
    end
  end.

End Route.

End UploadRoute.

(** ** app/api/summarize/route.ts *)

Module SummarizeRoute.

(** The JSON body [{ text, summaryType, customLength, tone }]; a member is
    [None] when the body does not have it.  [customLength] is an integer in
    the safe range. *)
Record SummarizeRequest : Type := mkRequest {
  text : option jsstring;
  summaryType : option jsstring;
  customLength : option Z;
  tone : option jsstring
}.

(** [customLength || 200] *)
Definition targetWords (customLength : option Z) : Z :=
  match customLength with
  | Some n => if (n =? 0)%Z then 200%Z else n
  | None => 200%Z
  end.

(** The [switch (summaryType)] that builds the prompt. *)
Definition basePrompt (summaryType : option jsstring)
    (customLength : option Z) (text : jsstring) : jsstring :=
  match summaryType with
  | Some ty =>
      if streq ty (lit "short") then
        lit "Please provide a concise summary of the following text in 1-2 paragraphs. Focus on the main points and key information:"
          ++ [LF; LF] ++ text
      else if streq ty (lit "bullet") then
        lit "Please summarize the following text as bullet points. Extract the key information and present it in a clear, organized list:"
          ++ [LF; LF] ++ text
      else if streq ty (lit "custom") then
        let wordCount := targetWords customLength in
        lit "Please summarize the following text in approximately "
          ++ Number_toString wordCount
          ++ lit " words. Maintain the essential information while being concise:"
          ++ [LF; LF] ++ text
      else
        lit "Please provide a comprehensive summary of the following text, highlighting the main points and key information:"
          ++ [LF; LF] ++ text
  | None =>
      lit "Please provide a comprehensive summary of the following text, highlighting the main points and key information:"
        ++ [LF; LF] ++ text
  end.

(** The object [toneInstructions], read at the key [tone]. *)
Definition toneInstructions (tone : jsstring) : option jsstring :=
  if streq tone (lit "professional") then
    Some (lit "Use a professional and formal tone.")
  else if streq tone (lit "casual") then
    Some (lit "Use a casual and conversational tone.")
  else if streq tone (lit "academic") then
    Some (lit "Use an academic and scholarly tone with precise language.")
  else None.

(** [if (tone && tone !== 'neutral') prompt = `${toneInstructions[tone]} ${prompt}`];
    a key the object does not have reads [undefined] (the members a key
    could inherit from [Object.prototype] are left out). *)
Definition withTone (tone : option jsstring) (prompt : jsstring) : jsstring :=
  match tone with
  | Some ((_ :: _) as t) =>
      if negb (streq t (lit "neutral")) then
        match toneInstructions t with
        | Some instruction => instruction
        | None => lit "undefined"
        end ++ lit " " ++ prompt
      else prompt
  | _ => prompt
  end.

Definition buildPrompt (req : SummarizeRequest) (text : jsstring) : jsstring :=
  withTone (tone req) (basePrompt (summaryType req) (customLength req) text).

Definition highlightPrompt (text : jsstring) : jsstring :=
  lit "From the following text, extract important keywords, names of people/organizations, and dates. Present them as a JSON object with three arrays: "
    ++ [DQUOTE] ++ lit "keywords" ++ [DQUOTE] ++ lit ", "
    ++ [DQUOTE] ++ lit "names" ++ [DQUOTE] ++ lit ", and "
    ++ [DQUOTE] ++ lit "dates" ++ [DQUOTE] ++ lit ":"
    ++ [LF; LF] ++ text.

(** [{ keywords: [], names: [], dates: [] }] *)
Definition emptyHighlights : json :=
  JObject [(lit "keywords", JArray []);
           (lit "names", JArray []);
           (lit "dates", JArray [])].

Definition OPEN_BRACE : N := 123%N.
Definition CLOSE_BRACE : N := 125%N.

(** The longest prefix of [s] that ends with a closing brace. *)
Fixpoint upto_last_close (s : jsstring) : option jsstring :=
  match s with
  | [] => None
  | c :: s' =>
      match upto_last_close s' with
      | Some r => Some (c :: r)
      | None => if (c =? CLOSE_BRACE)%N then Some [c] else None
      end
  end.

(** [highlightText.match(/\{[\s\S]*\}/)]: the match starts at the first
    opening brace and, the star being greedy, runs to the last closing
    brace after it; [None] is [null]. *)
Fixpoint match_braces (s : jsstring) : option jsstring :=
  match s with
  | [] => None
  | c :: s' =>
      if (c =? OPEN_BRACE)%N then
        match upto_last_close s' with
        | Some r => Some (c :: r)
        | None => None
        end
      else match_braces s'
  end.

(** A word count as a JavaScript number. *)
Definition Number_of_nat (n : nat) : float :=
  PrimFloat.of_uint63 (Uint63.of_Z (Z.of_nat n)).

(** [Math.round]: the nearest integer, a tie going up; [None] for [NaN] and
    the infinities.  The sign of a zero result is dropped, as
    [JSON.stringify] does. *)
Definition Math_round (x : float) : option Z :=
  match Prim2SF x with
  | S754_zero _ => Some 0%Z
  | S754_finite s m e =>
      let v := if s then Z.neg m else Z.pos m in
      Some (if (0 <=? e)%Z then (v * 2 ^ e)%Z
            else ((2 * v + 2 ^ (- e)) / 2 ^ (1 - e))%Z)
  | _ => None
  end.

(** [Math.round((1 - summaryWords / originalWords) * 100)] *)
Definition compressionRatio (summaryWords originalWords : nat) : option Z :=
  Math_round ((1 - Number_of_nat summaryWords / Number_of_nat originalWords) * 100)%float.

(** A number of a response body; [JSON.stringify] writes [null] for a
    number that is not finite. *)
Definition number_field (o : option Z) : jsval :=
  match o with
  | Some z => VNum z
  | None => VNull
  end.

Definition catch_all : Response :=
  json_error "Failed to generate summary. Please check your API key and try again." 500.

Section Route.

(** [process.env.GOOGLE_AI_API_KEY] *)
Variable GOOGLE_AI_API_KEY : option jsstring.

(** The hosted model: [model.generateContent(prompt)] is [None] when the
    call rejects, [response.text()] is [None] when it throws. *)
Variable GenerateContentResponse : Type.
Variable generateContent : jsstring -> option GenerateContentResponse.
Variable response_text : GenerateContentResponse -> option jsstring.

(** [JSON.parse], [None] when it throws. *)
Variable JSON_parse : jsstring -> option json.

(** The [try] block around the highlight response. *)
Definition parseHighlights (highlightResponse : GenerateContentResponse) : json :=
  match response_text highlightResponse with
  | None => emptyHighlights
  | Some highlightText =>
      match match_braces highlightText with
      | None => emptyHighlights
      | Some jsonMatch =>
          match JSON_parse jsonMatch with
          | Some parsed => parsed
          | None => emptyHighlights
          end
      end
  end.

(** [request] is [None] when [request.json()] throws. *)
Definition POST (request : option SummarizeRequest) : Response :=
  match request with
  | None => catch_all
  | Some req =>
    match text req with
    | None => json_error "No text provided for summarization" 400
    | Some text =>
      if isBlank text then
        json_error "No text provided for summarization" 400
      else if negb (truthy GOOGLE_AI_API_KEY) then
        json_error "Gemini API key not configured" 500
      else
        match generateContent (buildPrompt req text) with
        | None => catch_all
        | Some result =>
          match response_text result with
          | None => catch_all
          | Some summary =>
            match generateContent (highlightPrompt text) with
            | None => catch_all
            | Some highlightResponse =>
                let highlights := parseHighlights highlightResponse in
                json_ok [("success"%string, VBool true);
                         ("summary"%string, VStr summary);
                         ("highlights"%string, VJson highlights);
                         ("originalWordCount"%string,
                            VNum (Z.of_nat (countPieces text)));
                         ("summaryWordCount"%string,
                            VNum (Z.of_nat (countPieces summary)));
                         ("compressionRatio"%string,
                            number_field (compressionRatio (countPieces summary)
                                                           (countPieces text)))]
            end
          end
        end
    end
  end.

End Route.

End SummarizeRoute.

(** ** HistoryDashboard.deleteItem *)

Module HistoryDashboard.

(** A document of the [summaries] collection, as the dashboard reads it. *)
Record SummaryDoc : Type := mkDoc {
  userId : jsstring;
  fileName : jsstring;
  fileSize : N;
  fileType : jsstring;
  summary : jsstring;
  summaryType : jsstring;
  tone : jsstring;
  originalWordCount : Z;
  summaryWordCount : Z;
  compressionRatio : Z
}.

(** [{ id: doc.id, ...doc.data() }] *)
Record HistoryItem : Type := mkItem {
  id : jsstring;
  data : SummaryDoc
}.

(** The persisted collection, keyed by document id, and the component's
    state: the cached list and the selected item. *)
Record State : Type := mkState {
  summaries : gmap (list N) SummaryDoc;
  historyItems : list HistoryItem;
  selectedItem : option HistoryItem
}.

(** [await deleteDoc(doc(db, 'summaries', itemId))]: the document is gone
    when the call resolves; [None] when it rejects. *)
Definition deleteDoc (resolves : bool) (db : gmap (list N) SummaryDoc)
    (itemId : jsstring) : option (gmap (list N) SummaryDoc) :=
  if resolves then Some (delete itemId db) else None.

(** [resolves] tells whether the store accepts the deletion; when it does
    not, the [catch] only logs and the state is as before. *)
Definition deleteItem (resolves : bool) (st : State) (itemId : jsstring) : State :=
  match deleteDoc resolves (summaries st) itemId with
  | Some db' =>
      {| summaries := db';
         historyItems :=
           List.filter (fun item => negb (streq (id item) itemId)) (historyItems st);
         selectedItem :=
           match selectedItem st with
           | Some sel => if streq (id sel) itemId then None else Some sel
           | None => None
           end |}
  | None => st
  end.

End HistoryDashboard.

(** ** What the specification says of an extraction *)

(** The text and word count returned for a decoded text [t]: within the cap
    the text itself and its number of tokens, beyond the cap the first
    100,000 characters and the marker. *)
Definition as_specified (t text : jsstring) (wordCount : nat) : Prop :=
  ((jslength t <= 100000)%N -> text = t /\ wordCount = tokens_spec t) /\
  ((100000 < jslength t)%N -> text = firstn (N.to_nat 100000) t ++ lit "...").

(** ** Sample inputs *)

Module Samples.

Definition hello_txt : File.t :=
  {| File.name := lit "notes.txt"; File.type := TXT; File.size := 11;
     File.text := lit "hello world"; File.buffer_utf8 := lit "hello world" |}.

(** A text file that holds a space, a line feed and a space. *)
Definition blank_txt : File.t :=
  {| File.name := lit "blank.txt"; File.type := TXT; File.size := 3;
     File.text := [32; 10; 32]%N; File.buffer_utf8 := [32; 10; 32]%N |}.

(** A file of 20 MB with a media type the route does not accept. *)
Definition big_png : File.t :=
  {| File.name := lit "scan.png"; File.type := lit "image/png";
     File.size := 20971520; File.text := []; File.buffer_utf8 := [] |}.

Definition no_mammoth : File.t -> option jsstring := fun _ => None.

(** A text of 100,002 characters: 49,999 times [a ], then [bc d]. *)
Definition over_cap_txt : File.t :=
  let t := List.concat (repeat (lit "a ") (N.to_nat 49999)) ++ lit "bc d" in
  {| File.name := lit "long.txt"; File.type := TXT; File.size := 100002;
     File.text := t; File.buffer_utf8 := t |}.

(** A text of [n] words [w] separated by single spaces, for [1 <= n]. *)
Definition words (n : nat) : jsstring :=
  List.concat (repeat (lit "w ") (n - 1)) ++ lit "w".

(** A stand-in for the hosted model that answers every prompt with
    [answer], and a [JSON.parse] that rejects every text. *)
Definition constant_model (answer : jsstring) : jsstring -> option jsstring :=
  fun _ => Some answer.
Definition text_of : jsstring -> option jsstring := Some.
Definition parse_fails : jsstring -> option json := fun _ => None.

Definition request (text : option jsstring) (summaryType : string)
    (customLength : option Z) (tone : string)
  : SummarizeRoute.SummarizeRequest :=
  {| SummarizeRoute.text := text;
     SummarizeRoute.summaryType := Some (lit summaryType);
     SummarizeRoute.customLength := customLength;
     SummarizeRoute.tone := Some (lit tone) |}.

(** A cache of two history items, both persisted, the first one selected. *)
Definition doc0 : HistoryDashboard.SummaryDoc :=
  {| HistoryDashboard.userId := lit "u1";
     HistoryDashboard.fileName := lit "notes.txt";
     HistoryDashboard.fileSize := 11;
     HistoryDashboard.fileType := TXT;
     HistoryDashboard.summary := lit "hello";
     HistoryDashboard.summaryType := lit "short";
     HistoryDashboard.tone := lit "neutral";
     HistoryDashboard.originalWordCount := 2;
     HistoryDashboard.summaryWordCount := 1;
     HistoryDashboard.compressionRatio := 50 |}.

Definition item_a : HistoryDashboard.HistoryItem :=
  {| HistoryDashboard.id := lit "a"; HistoryDashboard.data := doc0 |}.
Definition item_b : HistoryDashboard.HistoryItem :=
  {| HistoryDashboard.id := lit "b"; HistoryDashboard.data := doc0 |}.

Definition state0 : HistoryDashboard.State :=
  {| HistoryDashboard.summaries := <[lit "a" := doc0]> (<[lit "b" := doc0]> ∅);
     HistoryDashboard.historyItems := [item_a; item_b];
     HistoryDashboard.selectedItem := Some item_a |}.

End Samples.

(** * More of the code *)

(** ** Pieces against words *)

(** [split] leaves one empty piece before a text that starts with white
    space (or is empty) and one after a text that ends with white space. *)
Definition leadingGap (s : jsstring) : nat :=
  match s with
  | [] => 1
  | c :: _ => if isWhiteSpace c then 1 else 0
  end.

Fixpoint ends_ws (prev : bool) (s : jsstring) : bool :=
  match s with
  | [] => prev
  | c :: s' => ends_ws (isWhiteSpace c) s'
  end.

Definition trailingGap (s : jsstring) : nat :=
  if ends_ws false s then 1 else 0.

(** ** DocumentSummarizer: handleFileSelect and handleSummarize *)

(** A number held in component state: [parseInt] of an input gives [NaN]
    when the input is empty. *)
Inductive jsnumber : Type :=
| Num (z : Z)
| NaN.

(** The document handed to [addDoc(collection(db, 'summaries'), ...)]; the
    members read from the response are [None] when the response lacks
    them, [customLength] is [None] for [null]. *)
Module SavedSummary.
Inductive FieldValue : Type := serverTimestamp.
Record t : Type := mk {
  userId : jsstring;
  fileName : jsstring;
  fileSize : N;
  fileType : jsstring;
  originalText : jsstring;
  summary : option jsval;
  summaryType : jsstring;
  tone : jsstring;
  customLength : option jsnumber;
  originalWordCount : option jsval;
  summaryWordCount : option jsval;
  compressionRatio : option jsval;
  highlights : option jsval;
  createdAt : FieldValue
}.
End SavedSummary.

Module SummarizerHandlers.

(** The outcome of [await fetch(...)] followed by [await response.json()]:
    a response with its JSON body, or an [Error] thrown on the way. *)
Inductive FetchResult : Type :=
| Responded (response : Response)
| Rejected (message : jsstring).

(** [response.ok] *)
Definition ok (r : Response) : bool :=
  ((200 <=? status r) && (status r <=? 299))%Z.

(** [result.error || fallback], for an error message that is a string. *)
Definition error_or (r : Response) (fallback : string) : jsstring :=
  match field "error" r with
  | Some (VStr ((_ :: _) as message)) => message
  | _ => lit fallback
  end.

(** [result.text]; a body without a text leaves [undefined], which every
    use of the state treats as the empty string. *)
Definition text_of_body (r : Response) : jsstring :=
  match field "text" r with
  | Some (VStr s) => s
  | _ => []
  end.

Record State : Type := mkState {
  isProcessing : bool;
  extractedText : jsstring;
  summaryResult : option (list (string * jsval));
  summaryType : jsstring;
  customLength : jsnumber;
  tone : jsstring;
  error : jsstring;
  currentFile : option File.t
}.

(** The [useState] defaults. *)
Definition initial : State :=
  {| isProcessing := false; extractedText := []; summaryResult := None;
     summaryType := lit "short"; customLength := Num 200;
     tone := lit "neutral"; error := []; currentFile := None |}.

(** The way out of both handlers: [setError] in the [catch] when an error
    was thrown, [setIsProcessing(false)] in the [finally]. *)
Definition finish (st : State) (text : jsstring)
    (result : option (list (string * jsval))) (err : jsstring) : State :=
  {| isProcessing := false; extractedText := text; summaryResult := result;
     summaryType := summaryType st; customLength := customLength st;
     tone := tone st; error := err; currentFile := currentFile st |}.

(** [JSON.stringify] of the custom length: [undefined] is left out and
    [NaN] is written [null]. *)
Definition customLength_sent (st : State) : option Z :=
  if streq (summaryType st) (lit "custom") then
    match customLength st with
    | Num z => Some z
    | NaN => None
    end
  else None.

Section Handlers.

(** The two endpoints as the browser sees them, and [useAuth().user] as
    the uid of the user, if any. *)
Variable upload_api : UploadRoute.FormData -> FetchResult.
Variable summarize_api : SummarizeRoute.SummarizeRequest -> FetchResult.
Variable user : option jsstring.

Definition handleFileSelect (st : State) (file : File.t) : State :=
  let st :=
    {| isProcessing := true; extractedText := extractedText st;
       summaryResult := None; summaryType := summaryType st;
       customLength := customLength st; tone := tone st; error := [];
       currentFile := Some file |} in
  match DocumentSummarizer.handleFileSelect_client file with
  | DocumentSummarizer.Extracted extractionResult =>
      finish st (FileExtractor.text extractionResult) None []
  | DocumentSummarizer.ServerSide =>
      (* [extractionResult] is still undefined here *)
      let extractionResult : option FileExtractor.FileExtractionResult := None in
      let formData :=
        {| UploadRoute.file := Some file;
           UploadRoute.extractedText :=
             match extractionResult with
             | Some r =>
                 match FileExtractor.text r with
                 | [] => None
                 | t => Some t
                 end
             | None => None
             end |} in
      match upload_api formData with
      | Responded response =>
          if ok response
          then finish st (text_of_body response) None []
          else finish st (extractedText st) None
                      (error_or response "Failed to process file")
      | Rejected message => finish st (extractedText st) None message
      end
  end.

Definition handleSummarize (st : State) : State * option SavedSummary.t :=
  match extractedText st with
  | [] => (st, None)
  | _ :: _ =>
    let request :=
      {| SummarizeRoute.text := Some (extractedText st);
         SummarizeRoute.summaryType := Some (summaryType st);
         SummarizeRoute.customLength := customLength_sent st;
         SummarizeRoute.tone := Some (tone st) |} in
    match summarize_api request with
    | Responded response =>
        if ok response then
          let result := response in
          (finish st (extractedText st) (Some (body result)) [],
           match user, currentFile st with
           | Some uid, Some currentFile =>
               Some {| SavedSummary.userId := uid;
                       SavedSummary.fileName := File.name currentFile;
                       SavedSummary.fileSize := File.size currentFile;
                       SavedSummary.fileType := File.type currentFile;
                       SavedSummary.originalText :=
                         substring0 1000 (extractedText st);
                       SavedSummary.summary := field "summary" result;
                       SavedSummary.summaryType := summaryType st;
                       SavedSummary.tone := tone st;
                       SavedSummary.customLength :=
                         if streq (summaryType st) (lit "custom")
                         then Some (customLength st) else None;
                       SavedSummary.originalWordCount :=
                         field "originalWordCount" result;
                       SavedSummary.summaryWordCount :=
                         field "summaryWordCount" result;
                       SavedSummary.compressionRatio :=
                         field "compressionRatio" result;
                       SavedSummary.highlights := field "highlights" result;
                       SavedSummary.createdAt := SavedSummary.serverTimestamp |}
           | _, _ => None
           end)
        else
          (finish st (extractedText st) (summaryResult st)
                  (error_or response "Failed to generate summary"), None)
    | Rejected message =>
        (finish st (extractedText st) (summaryResult st) message, None)
    end
  end.

End Handlers.

End SummarizerHandlers.

(** The two routes of this application behind [fetch], when the network
    delivers request and response. *)
Definition upload_endpoint (mammoth : File.t -> option jsstring)
  : UploadRoute.FormData -> SummarizerHandlers.FetchResult :=
  fun formData =>
    SummarizerHandlers.Responded (UploadRoute.POST mammoth (Some formData)).

Definition summarize_endpoint (key : option jsstring) (G : Type)
    (gen : jsstring -> option G) (rtext : G -> option jsstring)
    (parse : jsstring -> option json)
  : SummarizeRoute.SummarizeRequest -> SummarizerHandlers.FetchResult :=
  fun request =>
    SummarizerHandlers.Responded
      (SummarizeRoute.POST key G gen rtext parse (Some request)).

(** [onChange={(e) => setCustomLength(parseInt(e.target.value))}], on the
    number that [parseInt] gives. *)
Definition setCustomLength (st : SummarizerHandlers.State) (n : jsnumber)
  : SummarizerHandlers.State :=
  {| SummarizerHandlers.isProcessing := SummarizerHandlers.isProcessing st;
     SummarizerHandlers.extractedText := SummarizerHandlers.extractedText st;
     SummarizerHandlers.summaryResult := SummarizerHandlers.summaryResult st;
     SummarizerHandlers.summaryType := SummarizerHandlers.summaryType st;
     SummarizerHandlers.customLength := n;
     SummarizerHandlers.tone := SummarizerHandlers.tone st;
     SummarizerHandlers.error := SummarizerHandlers.error st;
     SummarizerHandlers.currentFile := SummarizerHandlers.currentFile st |}.

(** What the component holds as extracted text between two events:
    nothing yet, or a text that is not empty after trimming and has at
    most 100,003 characters. *)
Definition held_text_ok (t : jsstring) : Prop :=
  t = [] \/ (trim t <> [] /\ (jslength t <= 100003)%N).

(** ** LoginForm.handleEmailAuth *)

Module LoginForm.

Record FormData : Type := mkForm {
  email : jsstring;
  password : jsstring;
  displayName : jsstring;
  confirmPassword : jsstring
}.

Record State : Type := mkState {
  isSignUp : bool;
  loading : bool;
  error : jsstring;
  formData : FormData
}.

(** The call made to the authentication context. *)
Inductive AuthCall : Type :=
| signUpWithEmail (email password displayName : jsstring)
| signInWithEmail (email password : jsstring).

(** The call resolves, or rejects with an error; [code] is the [code]
    member of the error when it is an object that has one. *)
Inductive AuthOutcome : Type :=
| Resolved
| RejectedWith (code : option jsstring).

(** The chain of comparisons on [firebaseError.code]. *)
Definition errorMessage (code : option jsstring) : jsstring :=
  match code with
  | Some c =>
      if streq c (lit "auth/user-not-found") then
        lit "No account found with this email"
      else if streq c (lit "auth/wrong-password") then
        lit "Incorrect password"
      else if streq c (lit "auth/email-already-in-use") then
        lit "Email is already registered"
      else if streq c (lit "auth/invalid-email") then
        lit "Invalid email address"
      else if streq c (lit "auth/weak-password") then
        lit "Password is too weak"
      else lit "Authentication failed"
  | None => lit "Authentication failed"
  end.

Definition withError (st : State) (message : jsstring) : State :=
  {| isSignUp := isSignUp st; loading := loading st; error := message;
     formData := formData st |}.

Definition settled (st : State) (message : jsstring) : State :=
  {| isSignUp := isSignUp st; loading := false; error := message;
     formData := formData st |}.

Section Handler.

Variable auth : AuthCall -> AuthOutcome.

(** The new state, and the call that was made, if any. *)
Definition handleEmailAuth (st : State) : State * option AuthCall :=
  let form := formData st in
  if isSignUp st && negb (streq (password form) (confirmPassword form)) then
    (withError st (lit "Passwords do not match"), None)
  else if (jslength (password form) <? 6)%N then
    (withError st (lit "Password must be at least 6 characters"), None)
  else
    let call :=
      if isSignUp st
      then signUpWithEmail (email form) (password form) (displayName form)
      else signInWithEmail (email form) (password form) in
    match auth call with
    | Resolved => (settled st [], Some call)
    | RejectedWith code => (settled st (errorMessage code), Some call)
    end.

End Handler.

End LoginForm.

(** ** src/lib/pdfExtractor.ts *)

Module PdfExtractor.

(** [.replace(/\s+/g, ' ')]: every maximal run of white space becomes one
    space; [inws] tells that the scan is inside a run. *)
Fixpoint collapse_go (inws : bool) (s : jsstring) : jsstring :=
  match s with
  | [] => []
  | c :: s' =>
      if isWhiteSpace c
      then (if inws then collapse_go true s' else 32%N :: collapse_go true s')
      else c :: collapse_go false s'
  end.

Definition collapseWhitespace (s : jsstring) : jsstring := collapse_go false s.

(** For the text after a line feed: the length of what [\s*\n] matches
    there, that is the white space up to and with the last line feed of
    the run, 0 when the run has no line feed. *)
Fixpoint blankLines_len (s : jsstring) : nat :=
  match s with
  | [] => 0
  | c :: s' =>
      if isWhiteSpace c then
        match blankLines_len s' with
        | S n => S (S n)
        | O => if (c =? LF)%N then 1 else 0
        end
      else 0
  end.

(** [.replace(/\n\s*\n/g, '\n')]; [skip] counts the characters of the
    current match still to be dropped. *)
Fixpoint removeBlankLines_go (skip : nat) (s : jsstring) : jsstring :=
  match s with
  | [] => []
  | c :: s' =>
      match skip with
      | S k => removeBlankLines_go k s'
      | O =>
          if (c =? LF)%N
          then LF :: removeBlankLines_go (blankLines_len s') s'
          else c :: removeBlankLines_go 0 s'
      end
  end.

Definition removeBlankLines (s : jsstring) : jsstring := removeBlankLines_go 0 s.

(** [items.map(item => item.str).join(' ')] *)
Fixpoint join_space (items : list jsstring) : jsstring :=
  match items with
  | [] => []
  | [x] => x
  | x :: rest => x ++ 32%N :: join_space rest
  end.

(** The loop over the pages: [fullText += pageText + '\n']. *)
Fixpoint fullText (pages : list (list jsstring)) : jsstring :=
  match pages with
  | [] => []
  | items :: rest => (join_space items ++ [LF]) ++ fullText rest
  end.

Definition cleanText (full : jsstring) : jsstring :=
  trim (removeBlankLines (collapseWhitespace full)).

Record PDFExtractionResult : Type := mkResult {
  text : jsstring;
  pageCount : nat;
  wordCount : nat
}.

(** [inBrowser] is [typeof window !== 'undefined']; [pdf] is the text
    items of each page as pdf.js gives them, [None] when loading the
    document or reading a page throws. *)
Definition extractTextFromPDF (inBrowser : bool)
    (pdf : option (list (list jsstring))) : result PDFExtractionResult :=
  if negb inBrowser then
    Throw (lit "PDF extraction is only available in browser environment")
  else
    match pdf with
    | None =>
        Throw (lit "Failed to extract text from PDF. The file may be corrupted or password-protected.")
    | Some pages =>
        let clean := cleanText (fullText pages) in
        Ok {| text := clean;
              pageCount := length pages;
              wordCount := countWords clean |}
    end.

End PdfExtractor.

(** ** HistoryDashboard: the search effect *)

Module HistorySearch.

Section Search.

(** [String.prototype.toLowerCase] *)
Variable toLowerCase : jsstring -> jsstring.

Definition matches (searchQuery : jsstring)
    (item : HistoryDashboard.HistoryItem) : bool :=
  includesb (toLowerCase (HistoryDashboard.fileName (HistoryDashboard.data item)))
            (toLowerCase searchQuery) ||
  includesb (toLowerCase (HistoryDashboard.summary (HistoryDashboard.data item)))
            (toLowerCase searchQuery).

(** The effect on [searchQuery] and [historyItems], giving
    [filteredItems]. *)
Definition filterItems (searchQuery : jsstring)
    (historyItems : list HistoryDashboard.HistoryItem)
  : list HistoryDashboard.HistoryItem :=
  if streq (trim searchQuery) [] then historyItems
  else List.filter (matches searchQuery) historyItems.

End Search.

End HistorySearch.

(** ** FileUpload.onDrop *)

Module FileUpload.

(** A rejection of react-dropzone: the file and the codes of its errors. *)
Record FileRejection : Type := mkRejection {
  file : File.t;
  errors : list jsstring
}.

Record State : Type := mkState {
  selectedFile : option File.t;
  error : jsstring
}.

(** The new state, and the file passed to [onFileSelect], if any. *)
Definition onDrop (st : State) (acceptedFiles : list File.t)
    (rejectedFiles : list FileRejection) : State * option File.t :=
  match rejectedFiles with
  | rejection :: _ =>
      let message :=
        match errors rejection with
        | code :: _ =>
            if streq code (lit "file-too-large") then
              lit "File is too large. Maximum size is 10MB."
            else if streq code (lit "file-invalid-type") then
              lit "Invalid file type. Please upload DOCX or TXT files only."
            else lit "File upload failed. Please try again."
        | [] => lit "File upload failed. Please try again."
        end in
      ({| selectedFile := selectedFile st; error := message |}, None)
  | [] =>
      match acceptedFiles with
      | file :: _ => ({| selectedFile := Some file; error := [] |}, Some file)
      | [] => ({| selectedFile := selectedFile st; error := [] |}, None)
      end
  end.

End FileUpload.

(** ** More sample inputs *)

Module MoreSamples.

(** A Word document in which a browser would also read some text. *)
Definition report_docx : File.t :=
  {| File.name := lit "report.docx"; File.type := DOCX; File.size := 4096;
     File.text := lit "PK raw bytes"; File.buffer_utf8 := lit "PK raw bytes" |}.

(** A converter that finds the text [quarterly report] in every file. *)
Definition mammoth_reads : File.t -> option jsstring :=
  fun _ => Some (lit "quarterly report").

(** A model that answers the summary prompt with [A summary.] and rejects
    the highlight prompt, and one that answers both with a response whose
    text cannot be read. *)
Definition summary_only_model (prompt : jsstring) : option jsstring :=
  if prefixb (lit "From the following text") prompt then None
  else Some (lit "A summary.").

Definition unreadable_highlights (response : jsstring) : option jsstring :=
  match response with
  | [] => None
  | _ => Some response
  end.

(** A sign-up form whose two passwords differ and are short, a sign-in
    form with a password of eight characters, and two authentication
    services: one that accepts every call, one that knows no account. *)
Definition signup_mismatch : LoginForm.State :=
  {| LoginForm.isSignUp := true; LoginForm.loading := false;
     LoginForm.error := lit "old error";
     LoginForm.formData :=
       {| LoginForm.email := lit "a@b.c"; LoginForm.password := lit "abc";
          LoginForm.displayName := lit "Ann";
          LoginForm.confirmPassword := lit "abd" |} |}.

Definition signin_form : LoginForm.State :=
  {| LoginForm.isSignUp := false; LoginForm.loading := false;
     LoginForm.error := lit "old error";
     LoginForm.formData :=
       {| LoginForm.email := lit "a@b.c"; LoginForm.password := lit "s3cretpw";
          LoginForm.displayName := []; LoginForm.confirmPassword := [] |} |}.

Definition auth_accepts : LoginForm.AuthCall -> LoginForm.AuthOutcome :=
  fun _ => LoginForm.Resolved.

Definition auth_unknown_user : LoginForm.AuthCall -> LoginForm.AuthOutcome :=
  fun _ => LoginForm.RejectedWith (Some (lit "auth/user-not-found")).

(** A document of two pages: the items [Hello] and [ world], then a page
    whose only item is a line feed; and a scan of two pages without any
    text item. *)
Definition two_pages : list (list jsstring) :=
  [[lit "Hello"; lit " world"]; [[LF]]].

Definition scanned_pages : list (list jsstring) := [[]; [lit " "]].

(** A lower-casing for ASCII letters, standing in for the engine's. *)
Definition ascii_lower (s : jsstring) : jsstring :=
  List.map (fun c => if ((65 <=? c) && (c <=? 90))%N then (c + 32)%N else c) s.

(** The component after a first file was read, with a user signed in. *)
Definition after_first_file : SummarizerHandlers.State :=
  {| SummarizerHandlers.isProcessing := false;
     SummarizerHandlers.extractedText := lit "hello world";
     SummarizerHandlers.summaryResult := None;
     SummarizerHandlers.summaryType := lit "bullet";
     SummarizerHandlers.customLength := Num 200;
     SummarizerHandlers.tone := lit "neutral";
     SummarizerHandlers.error := [];
     SummarizerHandlers.currentFile := Some Samples.hello_txt |}.

Definition empty_highlight_model (prompt : jsstring) : option jsstring :=
  if prefixb (lit "From the following text") prompt then Some []
  else Some (lit "A summary.").

End MoreSamples.

(** * Properties *)

(** ** Strings *)

Section StringFacts.

Lemma streq_refl (a : jsstring) : streq a a = true.
Proof.
  induction a as [|x a IH]; simpl; [reflexivity|].
  rewrite N.eqb_refl. exact IH.
Qed.

Lemma streq_eq (a b : jsstring) : streq a b = true <-> a = b.
Proof.
  split; [|intros ->; apply streq_refl].
  revert b. induction a as [|x a IH]; intros [|y b]; simpl; try discriminate.
  - reflexivity.
  - intros H. apply andb_prop in H as [Hx Hab].
    apply N.eqb_eq in Hx. apply IH in Hab. congruence.
Qed.

Lemma streq_neq (a b : jsstring) : streq a b = false <-> a <> b.
Proof.
  destruct (streq a b) eqn:E.
  - apply streq_eq in E. split; [discriminate | contradiction].
  - split; [|reflexivity]. intros _ Hab.
    apply streq_eq in Hab. congruence.
Qed.

(** [split], [trim] and the counts on small texts. *)
Example split_examples :
  split_ws (lit " a  b ") = [[]; lit "a"; lit "b"; []] /\
  split_ws [] = [[]] /\
  countWords (lit " a  b ") = 2 /\ countPieces (lit " a  b ") = 4 /\
  countWords [] = 0 /\ countPieces [] = 1 /\
  trim (lit "  a b  ") = lit "a b" /\ trim [9; 10; 160; 65279]%N = [] /\
  Number_toString 200 = lit "200" /\ Number_toString (-7) = lit "-7".
Proof. repeat split. Qed.

(** [text.trim().length === 0] says that nothing is left after trimming. *)
Lemma isBlank_false (s : jsstring) : isBlank s = false <-> trim s <> [].
Proof.
  destruct s as [|c s]; simpl.
  - split; [discriminate | intros H; contradiction H; reflexivity].
  - destruct (trim (c :: s)); simpl; split; congruence.
Qed.

Lemma isBlank_true (s : jsstring) : isBlank s = true <-> trim s = [].
Proof.
  destruct s as [|c s]; simpl.
  - split; reflexivity.
  - destruct (trim (c :: s)); simpl; split; congruence.
Qed.

(** The scan of [split] and the count of runs agree: a piece being read
    counts for one word, white space counts for none. *)
Lemma split_go_count (s tok : jsstring) (inws : bool) :
  (inws = true -> tok = []) ->
  length (List.filter nonEmpty (split_go tok inws s)) =
  match tok with
  | [] => count_runs true s
  | _ :: _ => 1 + count_runs false s
  end.
Proof.
  revert tok inws.
  induction s as [|c s IH]; intros tok inws Hinv; simpl.
  - destruct tok; reflexivity.
  - destruct (isWhiteSpace c).
    + destruct inws.
      * rewrite (Hinv eq_refl). rewrite IH by reflexivity. reflexivity.
      * simpl. destruct tok as [|t tok]; simpl;
          rewrite IH by reflexivity; reflexivity.
    + rewrite IH by discriminate.
      destruct tok; simpl; reflexivity.
Qed.

(** The word count of the extraction is the number of non-empty
    white-space-delimited tokens. *)
Lemma countWords_tokens (s : jsstring) : countWords s = tokens_spec s.
Proof.
  unfold countWords, split_ws, tokens_spec.
  apply (split_go_count s [] false). discriminate.
Qed.

(** [split] never returns an empty array, so a count of pieces is positive. *)
Lemma split_go_nonempty (s tok : jsstring) (inws : bool) :
  1 <= length (split_go tok inws s).
Proof.
  revert tok inws. induction s as [|c s IH]; intros tok inws; simpl.
  - lia.
  - destruct (isWhiteSpace c); [destruct inws|]; simpl;
      try apply IH; specialize (IH [] true); lia.
Qed.

Lemma countPieces_pos (s : jsstring) : 1 <= countPieces s.
Proof. apply split_go_nonempty. Qed.

Lemma capText_small (t : jsstring) :
  (jslength t <= MAX_CHARS)%N -> capText t = t.
Proof.
  intros H. unfold capText.
  apply N.ltb_ge in H. rewrite H. reflexivity.
Qed.

Lemma capText_large (t : jsstring) :
  (MAX_CHARS < jslength t)%N ->
  capText t = firstn (N.to_nat MAX_CHARS) t ++ lit "...".
Proof.
  intros H. unfold capText.
  apply N.ltb_lt in H. rewrite H. reflexivity.
Qed.

Lemma prefixb_app (needle post : jsstring) : prefixb needle (needle ++ post) = true.
Proof.
  induction needle as [|x n IH]; simpl; [reflexivity|].
  rewrite N.eqb_refl. exact IH.
Qed.

Lemma includes_includesb (hay needle : jsstring) :
  includes hay needle -> includesb hay needle = true.
Proof.
  intros (pre & post & ->).
  induction pre as [|p pre IH]; simpl.
  - destruct (needle ++ post) eqn:E.
    + destruct needle; [reflexivity | discriminate].
    + simpl. rewrite <- E, prefixb_app. reflexivity.
  - rewrite IH. apply orb_true_r.
Qed.

End StringFacts.

(** ** Extraction of plain text *)

Section Extraction.

Import FileExtractor DocumentSummarizer UploadRoute.

Lemma TXT_not_DOCX : streq TXT DOCX = false.
Proof. reflexivity. Qed.

(** The exported function on a plain-text file that is not blank. *)
Lemma extractTextFromFile_txt (f : File.t) :
  File.type f = TXT -> isBlank (File.text f) = false ->
  extractTextFromFile f =
  Ok {| text := capText (File.text f);
        wordCount := countWords (capText (File.text f));
        fileType := File.type f;
        fileName := File.name f;
        fileSize := File.size f |}.
Proof.
  intros Hty Hnb. unfold extractTextFromFile.
  rewrite Hty, TXT_not_DOCX, streq_refl, Hnb. reflexivity.
Qed.

(** The exported function throws on a blank plain-text file. *)
Lemma extractTextFromFile_blank (f : File.t) :
  File.type f = TXT -> isBlank (File.text f) = true ->
  extractTextFromFile f = Throw (lit "No text could be extracted from the file").
Proof.
  intros Hty Hb. unfold extractTextFromFile.
  rewrite Hty, TXT_not_DOCX, streq_refl, Hb. reflexivity.
Qed.

(** The inline branch of [handleFileSelect] on such a file: the count is
    taken before the cap. *)
Lemma handleFileSelect_client_txt (f : File.t) :
  File.type f = TXT -> isBlank (File.text f) = false ->
  handleFileSelect_client f =
  Extracted {| text := capText (File.text f);
               wordCount := countWords (File.text f);
               fileType := File.type f;
               fileName := File.name f;
               fileSize := File.size f |}.
Proof.
  intros Hty Hnb. unfold handleFileSelect_client.
  rewrite Hty, streq_refl, Hnb. reflexivity.
Qed.

(** The route on a request without pre-extracted text that carries an
    accepted plain-text file. *)
Lemma POST_extracts_txt (mammoth : File.t -> option jsstring)
    (data : FormData) (f : File.t) :
  truthy (extractedText data) = false -> file data = Some f ->
  File.type f = TXT -> (File.size f <= 10 * 1024 * 1024)%N ->
  isBlank (File.buffer_utf8 f) = false ->
  POST mammoth (Some data) =
  json_ok [("success"%string, VBool true);
           ("text"%string, VStr (capText (File.buffer_utf8 f)));
           ("filename"%string, VStr (File.name f));
           ("fileSize"%string, VNum (Z.of_N (File.size f)));
           ("wordCount"%string,
              VNum (Z.of_nat (countWords (capText (File.buffer_utf8 f)))))].
Proof.
  intros He Hf Hty Hsz Hnb. unfold POST.
  assert (Hmatch : match extractedText data with
                   | Some (_ :: _) => False | _ => True end).
  { destruct (extractedText data) as [[|c e]|]; simpl in He;
      [exact I | discriminate | exact I]. }
  apply N.ltb_ge in Hsz.
  destruct (extractedText data) as [[|c e]|]; try contradiction;
    rewrite Hf, Hty, TXT_not_DOCX, streq_refl; simpl negb; cbv iota;
    rewrite Hsz, Hnb; reflexivity.
Qed.

Lemma as_specified_cap (t : jsstring) :
  as_specified t (capText t) (countWords (capText t)).
Proof.
  split; intros H.
  - rewrite (capText_small t H). split; [reflexivity | apply countWords_tokens].
  - apply (capText_large t H).
Qed.

Lemma as_specified_cap_early (t : jsstring) :
  as_specified t (capText t) (countWords t).
Proof.
  split; intros H.
  - rewrite (capText_small t H). split; [reflexivity | apply countWords_tokens].
  - apply (capText_large t H).
Qed.

End Extraction.

(** ** The claims on extraction *)

Section ExtractionClaims.

Import FileExtractor DocumentSummarizer UploadRoute Samples.

(** C1.  For a plain-text file whose decoded text is not empty after
    trimming, the exported [extractTextFromFile] and the inline branch of
    [handleFileSelect] return a result, and so does [POST /api/upload] for
    a request without pre-extracted text whose file is within the 10 MB
    limit.  In each case a text of at most 100,000 characters is returned
    verbatim with the number of its non-empty white-space-delimited tokens
    as word count, and a longer text is returned as its first 100,000
    characters followed by the marker of three dots.  A text that is empty
    after trimming is turned down by the guard of each path, so nothing is
    returned for it. *)
Theorem plain_text_extraction (mammoth : File.t -> option jsstring)
    (f : File.t) (data : FormData) :
  File.type f = TXT ->
  (trim (File.text f) <> [] ->
     exists r, extractTextFromFile f = Ok r /\
               as_specified (File.text f) (text r) (wordCount r)) /\
  (trim (File.text f) <> [] ->
     exists r, handleFileSelect_client f = Extracted r /\
               as_specified (File.text f) (text r) (wordCount r)) /\
  (trim (File.buffer_utf8 f) <> [] ->
   (File.size f <= 10 * 1024 * 1024)%N ->
   file data = Some f -> truthy (extractedText data) = false ->
     exists returned wc,
       status (POST mammoth (Some data)) = 200%Z /\
       field "text" (POST mammoth (Some data)) = Some (VStr returned) /\
       field "wordCount" (POST mammoth (Some data)) = Some (VNum (Z.of_nat wc)) /\
       as_specified (File.buffer_utf8 f) returned wc).
Proof.
  intros Hty. split; [|split].
  - intros Hnb%isBlank_false. eexists. split.
    + apply extractTextFromFile_txt; assumption.
    + apply as_specified_cap.
  - intros Hnb%isBlank_false. eexists. split.
    + apply handleFileSelect_client_txt; assumption.
    + apply as_specified_cap_early.
  - intros Hnb%isBlank_false Hsz Hf He.
    rewrite (POST_extracts_txt mammoth data f He Hf Hty Hsz Hnb).
    exists (capText (File.buffer_utf8 f)), (countWords (capText (File.buffer_utf8 f))).
    split; [reflexivity|]. split; [reflexivity|]. split; [reflexivity|].
    apply as_specified_cap.
Qed.

(** C1 at [notes.txt], sent to the route without pre-extracted text. *)
Lemma plain_text_extraction_witness :
  (exists r, extractTextFromFile hello_txt = Ok r /\
             text r = lit "hello world" /\ wordCount r = 2) /\
  (exists r, handleFileSelect_client hello_txt = Extracted r /\
             text r = lit "hello world" /\ wordCount r = 2) /\
  field "text" (POST no_mammoth
                  (Some {| file := Some hello_txt; extractedText := None |}))
  = Some (VStr (lit "hello world")).
Proof.
  pose proof (plain_text_extraction no_mammoth hello_txt
                {| file := Some hello_txt; extractedText := None |} eq_refl)
    as (H1 & H2 & H3).
  assert (Hnb : trim (lit "hello world") <> [])
    by (intros H; vm_compute in H; discriminate H).
  assert (Hlen : (jslength (lit "hello world") <= 100000)%N)
    by (intros H; vm_compute in H; discriminate H).
  split; [|split].
  - destruct (H1 Hnb) as (r & Hr & Hspec & _).
    destruct (Hspec Hlen) as [Ht Hw].
    exists r. repeat split; [exact Hr | exact Ht | exact Hw].
  - destruct (H2 Hnb) as (r & Hr & Hspec & _).
    destruct (Hspec Hlen) as [Ht Hw].
    exists r. repeat split; [exact Hr | exact Ht | exact Hw].
  - assert (Hsz : (File.size hello_txt <= 10 * 1024 * 1024)%N)
      by (intros H; vm_compute in H; discriminate H).
    destruct (H3 Hnb Hsz eq_refl eq_refl) as (t & wc & _ & Ht & _ & Hspec & _).
    destruct (Hspec Hlen) as [-> _]. exact Ht.
Defined.

(** The guard on a blank file: its text has three characters, and no path
    returns a text for it.  The exported function throws, the inline
    branch gives up and the route answers 400. *)
Lemma blank_text_is_rejected :
  (jslength (File.text blank_txt) <= 100000)%N /\
  ~ (exists r, extractTextFromFile blank_txt = Ok r /\
               text r = File.text blank_txt) /\
  extractTextFromFile blank_txt =
    Throw (lit "No text could be extracted from the file") /\
  handleFileSelect_client blank_txt = ServerSide /\
  POST no_mammoth (Some {| file := Some blank_txt; extractedText := None |}) =
    json_error "No text could be extracted from the file" 400.
Proof.
  assert (E : extractTextFromFile blank_txt =
              Throw (lit "No text could be extracted from the file"))
    by reflexivity.
  split; [intros H; vm_compute in H; discriminate H|].
  split; [intros (r & Hr & _); rewrite E in Hr; discriminate Hr|].
  split; [exact E|]. split; reflexivity.
Qed.

(** C10.  On a plain-text file whose decoded text is not empty after
    trimming and has at most 100,000 characters, [extractTextFromFile] and
    the inline branch of [handleFileSelect] build the same result: the same
    text, word count, file type, file name and file size. *)
Theorem client_extractions_agree (f : File.t) :
  File.type f = TXT ->
  trim (File.text f) <> [] ->
  (jslength (File.text f) <= 100000)%N ->
  exists r, extractTextFromFile f = Ok r /\
            handleFileSelect_client f = Extracted r /\
            text r = File.text f /\
            wordCount r = tokens_spec (File.text f) /\
            fileType r = File.type f /\
            fileName r = File.name f /\
            fileSize r = File.size f.
Proof.
  intros Hty Hnb%isBlank_false Hlen.
  eexists. split; [apply extractTextFromFile_txt; assumption|].
  rewrite (handleFileSelect_client_txt f Hty Hnb).
  rewrite (capText_small _ Hlen). simpl.
  repeat split. apply countWords_tokens.
Qed.

Lemma client_extractions_agree_witness :
  exists r, extractTextFromFile hello_txt = Ok r /\
            handleFileSelect_client hello_txt = Extracted r.
Proof.
  assert (Hnb : trim (File.text hello_txt) <> [])
    by (intros H; vm_compute in H; discriminate H).
  assert (Hlen : (jslength (File.text hello_txt) <= 100000)%N)
    by (intros H; vm_compute in H; discriminate H).
  destruct (client_extractions_agree hello_txt eq_refl Hnb Hlen)
    as (r & H1 & H2 & _).
  exists r. split; [exact H1 | exact H2].
Defined.

(** Beyond the cap the two differ: the inline branch counts the words of
    the whole text, the exported function those of the capped text. *)
Example word_counts_differ_beyond_cap :
  match extractTextFromFile over_cap_txt with
  | Ok r => Some (N.of_nat (wordCount r))
  | Throw _ => None
  end = Some 50000%N /\
  match handleFileSelect_client over_cap_txt with
  | Extracted r => Some (N.of_nat (wordCount r))
  | ServerSide => None
  end = Some 50001%N.
Proof. split; vm_compute; reflexivity. Qed.

End ExtractionClaims.

(** ** The summarize route *)

Section SummarizeFacts.

Import SummarizeRoute.

Variable GOOGLE_AI_API_KEY : option jsstring.
Variable GenerateContentResponse : Type.
Variable generateContent : jsstring -> option GenerateContentResponse.
Variable response_text : GenerateContentResponse -> option jsstring.
Variable JSON_parse : jsstring -> option json.

(** A request without text, or with a blank one, gets the 400 of the first
    check, whatever the credential. *)
Lemma POST_no_text (req : SummarizeRequest) :
  (text req = None \/ exists t, text req = Some t /\ isBlank t = true) ->
  POST GOOGLE_AI_API_KEY GenerateContentResponse generateContent
       response_text JSON_parse (Some req) = json_error "No text provided for summarization" 400.
Proof.
  intros [Hnone | (t & Ht & Hb)]; unfold POST.
  - rewrite Hnone. reflexivity.
  - rewrite Ht, Hb. reflexivity.
Qed.

(** A request that passes the first check gets the 500 of the second one
    when the credential is falsy. *)
Lemma POST_no_key (req : SummarizeRequest) (t : jsstring) :
  text req = Some t -> isBlank t = false ->
  truthy GOOGLE_AI_API_KEY = false ->
  POST GOOGLE_AI_API_KEY GenerateContentResponse generateContent
       response_text JSON_parse (Some req) = json_error "Gemini API key not configured" 500.
Proof.
  intros Ht Hnb Hk. unfold POST. rewrite Ht, Hnb, Hk. reflexivity.
Qed.

(** Past the two checks the answer is the catch-all 500 or a 200. *)
Lemma POST_past_checks (req : SummarizeRequest) (t : jsstring) :
  text req = Some t -> isBlank t = false ->
  truthy GOOGLE_AI_API_KEY = true ->
  POST GOOGLE_AI_API_KEY GenerateContentResponse generateContent
       response_text JSON_parse (Some req) = catch_all \/ status (POST GOOGLE_AI_API_KEY GenerateContentResponse generateContent
       response_text JSON_parse (Some req)) = 200%Z.
Proof.
  intros Ht Hnb Hk. unfold POST. rewrite Ht, Hnb, Hk. simpl negb. cbv iota.
  destruct (generateContent (buildPrompt req t)) as [result|]; [|left; reflexivity].
  destruct (response_text result) as [summary|]; [|left; reflexivity].
  destruct (generateContent (highlightPrompt t)) as [hr|]; [|left; reflexivity].
  right. reflexivity.
Qed.

(** The 200 of a request for which both calls to the model resolve. *)
Lemma POST_success (req : SummarizeRequest) (t summary : jsstring)
    (result highlightResponse : GenerateContentResponse) :
  text req = Some t -> isBlank t = false ->
  truthy GOOGLE_AI_API_KEY = true ->
  generateContent (buildPrompt req t) = Some result ->
  response_text result = Some summary ->
  generateContent (highlightPrompt t) = Some highlightResponse ->
  POST GOOGLE_AI_API_KEY GenerateContentResponse generateContent
       response_text JSON_parse (Some req) =
  json_ok [("success"%string, VBool true);
           ("summary"%string, VStr summary);
           ("highlights"%string,
              VJson (parseHighlights GenerateContentResponse response_text
                                     JSON_parse highlightResponse));
           ("originalWordCount"%string, VNum (Z.of_nat (countPieces t)));
           ("summaryWordCount"%string, VNum (Z.of_nat (countPieces summary)));
           ("compressionRatio"%string,
              number_field (compressionRatio (countPieces summary)
                                             (countPieces t)))].
Proof.
  intros Ht Hnb Hk Hg Hs Hh. unfold POST.
  rewrite Ht, Hnb, Hk. simpl negb. cbv iota.
  rewrite Hg, Hs, Hh. reflexivity.
Qed.

End SummarizeFacts.

(** ** The brace-delimited substring of the highlight response *)

Section Braces.

Import SummarizeRoute.

Lemma upto_last_close_none (s : jsstring) :
  upto_last_close s = None <-> ~ In CLOSE_BRACE s.
Proof.
  induction s as [|c s IH]; simpl.
  - split; [intros _ [] | reflexivity].
  - destruct (upto_last_close s) as [r|].
    + split; [discriminate|]. intros H. exfalso.
      destruct IH as [_ IH]. 
      assert (Hin : ~ In CLOSE_BRACE s) by (intros Hin; apply H; right; exact Hin).
      specialize (IH Hin). discriminate IH.
    + destruct (N.eqb_spec c CLOSE_BRACE) as [->|Hne].
      * split; [discriminate|]. intros H. exfalso. apply H. left. reflexivity.
      * split; [|reflexivity]. intros _ [Hc|Hin]; [congruence|].
        destruct IH as [IH _]. exact (IH eq_refl Hin).
Qed.

Lemma upto_last_close_some (s r : jsstring) :
  upto_last_close s = Some r ->
  exists b c, s = b ++ CLOSE_BRACE :: c /\ r = b ++ [CLOSE_BRACE] /\
              ~ In CLOSE_BRACE c.
Proof.
  revert r. induction s as [|x s IH]; simpl; intros r H; [discriminate|].
  destruct (upto_last_close s) as [r'|] eqn:E.
  - injection H as <-. destruct (IH r' eq_refl) as (b & c & -> & -> & Hc).
    exists (x :: b), c. repeat split; assumption.
  - destruct (N.eqb_spec x CLOSE_BRACE) as [->|Hne]; [|discriminate].
    injection H as <-. exists [], s. repeat split.
    apply upto_last_close_none. exact E.
Qed.

(** A match is the text from the first opening brace to the last closing
    brace. *)
Lemma match_braces_some (h m : jsstring) :
  match_braces h = Some m ->
  exists a b c, h = a ++ OPEN_BRACE :: b ++ CLOSE_BRACE :: c /\
                m = OPEN_BRACE :: b ++ [CLOSE_BRACE] /\
                ~ In OPEN_BRACE a /\ ~ In CLOSE_BRACE c.
Proof.
  induction h as [|x h IH]; simpl; intros H; [discriminate|].
  destruct (N.eqb_spec x OPEN_BRACE) as [->|Hne].
  - destruct (upto_last_close h) as [r|] eqn:E; [|discriminate].
    injection H as <-.
    destruct (upto_last_close_some h r E) as (b & c & -> & -> & Hc).
    exists [], b, c. repeat split; [intros [] | exact Hc].
  - destruct (IH H) as (a & b & c & -> & -> & Ha & Hc).
    exists (x :: a), b, c. repeat split; [|exact Hc].
    intros [Hx|Hin]; [congruence | exact (Ha Hin)].
Qed.

(** There is no match exactly when no opening brace is followed, at any
    distance, by a closing brace. *)
Lemma match_braces_none (h : jsstring) :
  match_braces h = None <->
  ~ exists a b c, h = a ++ OPEN_BRACE :: b ++ CLOSE_BRACE :: c.
Proof.
  split.
  - induction h as [|x h IH]; simpl; intros H (a & b & c & Hdec).
    + destruct a; discriminate Hdec.
    + assert (Hclose : In CLOSE_BRACE h).
      { destruct a as [|y a]; simpl in Hdec; injection Hdec as _ ->;
          repeat (rewrite in_app_iff; simpl); tauto. }
      destruct (N.eqb_spec x OPEN_BRACE) as [->|Hne].
      * destruct (upto_last_close h) as [r|] eqn:E; [discriminate|].
        apply upto_last_close_none in E. exact (E Hclose).
      * destruct a as [|y a]; simpl in Hdec; injection Hdec as Hx Hh.
        -- congruence.
        -- apply (IH H). exists a, b, c. exact Hh.
  - intros Hno. destruct (match_braces h) as [m|] eqn:E; [|reflexivity].
    exfalso. apply Hno.
    destruct (match_braces_some h m E) as (a & b & c & Hdec & _).
    exists a, b, c. exact Hdec.
Qed.

(** The match runs from the first opening brace to the last closing one. *)
Example match_braces_examples :
  match_braces (lit "x {a} y } z") = Some (lit "{a} y }") /\
  match_braces (lit "} no {") = None /\
  match_braces (lit "plain") = None.
Proof. repeat split. Qed.

End Braces.

(** ** The claims on the summarize route *)

Section SummarizeClaims.

Import SummarizeRoute Samples.

Lemma json_error_message_inj (m1 m2 : string) (st1 st2 : Z) :
  json_error m1 st1 = json_error m2 st2 -> st1 = st2 /\ lit m1 = lit m2.
Proof. unfold json_error. intros H. injection H as H1 H2. split; assumption. Qed.

(** C2, as amended.  In the 200 of [POST /summarize] the compressionRatio is
    [Math.round((1 - s / o) * 100)], computed in double precision with a tie
    rounded up, where [s] and [o] are the summaryWordCount and the
    originalWordCount of the same response; 100 words out of 1000 give 90; a
    summary with more words than the input can give a negative value (200
    words out of 100 give -100) and gives 0 when the excess rounds away (251
    words out of 250). *)
Theorem compression_ratio_of_response
    (key : option jsstring) (G : Type) (gen : jsstring -> option G)
    (rtext : G -> option jsstring) (parse : jsstring -> option json)
    (req : SummarizeRequest) (t summary : jsstring) (r1 r2 : G) :
  text req = Some t -> trim t <> [] -> truthy key = true ->
  gen (buildPrompt req t) = Some r1 -> rtext r1 = Some summary ->
  gen (highlightPrompt t) = Some r2 ->
  (exists s o : nat,
     let resp := POST key G gen rtext parse (Some req) in
     status resp = 200%Z /\
     field "summaryWordCount" resp = Some (VNum (Z.of_nat s)) /\
     field "originalWordCount" resp = Some (VNum (Z.of_nat o)) /\
     field "compressionRatio" resp =
       Some (number_field
               (Math_round ((1 - Number_of_nat s / Number_of_nat o) * 100)%float))) /\
  compressionRatio 100 1000 = Some 90%Z /\
  compressionRatio 200 100 = Some (-100)%Z /\
  compressionRatio 251 250 = Some 0%Z.
Proof.
  intros Ht Hnb%isBlank_false Hk Hg Hs Hh. split.
  - exists (countPieces summary), (countPieces t). cbv zeta.
    rewrite (POST_success key G gen rtext parse req t summary r1 r2
               Ht Hnb Hk Hg Hs Hh).
    split; [reflexivity|]. split; [reflexivity|]. split; reflexivity.
  - split; [|split]; vm_compute; reflexivity.
Qed.

(** The amended C2 on a request of 1000 words answered by 100 words. *)
Lemma compression_ratio_of_response_witness :
  exists s o : nat,
    let resp :=
      POST (Some (lit "key")) jsstring (constant_model (words 100)) text_of
           parse_fails
           (Some (request (Some (words 1000)) "short" None "neutral")) in
    status resp = 200%Z /\
    field "summaryWordCount" resp = Some (VNum (Z.of_nat s)) /\
    field "originalWordCount" resp = Some (VNum (Z.of_nat o)) /\
    field "compressionRatio" resp =
      Some (number_field
              (Math_round ((1 - Number_of_nat s / Number_of_nat o) * 100)%float)).
Proof.
  assert (Hnb : trim (words 1000) <> [])
    by (intros H; vm_compute in H; discriminate H).
  exact (proj1 (compression_ratio_of_response
                  (Some (lit "key")) jsstring (constant_model (words 100))
                  text_of parse_fails
                  (request (Some (words 1000)) "short" None "neutral")
                  (words 1000) (words 100) (words 100) (words 100)
                  eq_refl Hnb eq_refl eq_refl eq_refl eq_refl)).
Defined.

(** C2 as stated fails: a summary of 251 words for a text of 250 words has
    more words than the input, and the compressionRatio of the response is
    0, which is not negative. *)
Lemma longer_summary_ratio_not_negative :
  exists s o ratio : Z,
    let resp :=
      POST (Some (lit "key")) jsstring (constant_model (words 251)) text_of
           parse_fails
           (Some (request (Some (words 250)) "short" None "neutral")) in
    status resp = 200%Z /\
    field "summaryWordCount" resp = Some (VNum s) /\
    field "originalWordCount" resp = Some (VNum o) /\
    field "compressionRatio" resp = Some (VNum ratio) /\
    (o < s)%Z /\ ~ (ratio < 0)%Z.
Proof.
  exists 251%Z, 250%Z, 0%Z. cbv zeta.
  split; [vm_compute; reflexivity|].
  split; [vm_compute; reflexivity|].
  split; [vm_compute; reflexivity|].
  split; [vm_compute; reflexivity|]. lia.
Qed.

(** C3, as amended.  [POST /summarize] answers 400 with an error body when
    the text is absent or empty after trimming, whether the credential is
    set or not; it answers 500 with an error body when the text is not
    empty after trimming and the credential is unset or empty; and when the
    text is not empty after trimming and the credential is set, the answer
    is neither of these two error responses. *)
Theorem summarize_checks
    (key : option jsstring) (G : Type) (gen : jsstring -> option G)
    (rtext : G -> option jsstring) (parse : jsstring -> option json)
    (req : SummarizeRequest) :
  ((text req = None \/ exists t, text req = Some t /\ trim t = []) ->
     POST key G gen rtext parse (Some req) =
     json_error "No text provided for summarization" 400) /\
  (forall t, text req = Some t -> trim t <> [] -> truthy key = false ->
     POST key G gen rtext parse (Some req) =
     json_error "Gemini API key not configured" 500) /\
  (forall t, text req = Some t -> trim t <> [] -> truthy key = true ->
     POST key G gen rtext parse (Some req) <>
       json_error "No text provided for summarization" 400 /\
     POST key G gen rtext parse (Some req) <>
       json_error "Gemini API key not configured" 500).
Proof.
  split; [|split].
  - intros H. apply POST_no_text.
    destruct H as [H | (t & Ht & Hb)]; [left; exact H | right].
    exists t. split; [exact Ht | apply isBlank_true; exact Hb].
  - intros t Ht Hnb%isBlank_false Hk. apply (POST_no_key _ _ _ _ _ req t); assumption.
  - intros t Ht Hnb%isBlank_false Hk.
    destruct (POST_past_checks key G gen rtext parse req t Ht Hnb Hk) as [E | E].
    + rewrite E. unfold catch_all. split; intros H;
        apply json_error_message_inj in H as [H1 H2];
        [discriminate H1 | vm_compute in H2; discriminate H2].
    + split; intros H; rewrite H in E; discriminate E.
Qed.

(** The amended C3 on three requests: a blank text without credential, a
    text without credential, a text with credential. *)
Lemma summarize_checks_witness :
  status (POST None jsstring (constant_model (words 3)) text_of parse_fails
            (Some (request (Some (lit " ")) "short" None "neutral"))) = 400%Z /\
  status (POST None jsstring (constant_model (words 3)) text_of parse_fails
            (Some (request (Some (words 9)) "short" None "neutral"))) = 500%Z /\
  POST (Some (lit "key")) jsstring (constant_model (words 3)) text_of parse_fails
       (Some (request (Some (words 9)) "short" None "neutral")) <>
    json_error "Gemini API key not configured" 500.
Proof.
  assert (Hnb : trim (words 9) <> [])
    by (intros H; vm_compute in H; discriminate H).
  split; [|split].
  - destruct (summarize_checks None jsstring (constant_model (words 3)) text_of
                parse_fails (request (Some (lit " ")) "short" None "neutral"))
      as (H1 & _ & _).
    rewrite H1; [reflexivity|].
    right. exists (lit " "). split; reflexivity.
  - destruct (summarize_checks None jsstring (constant_model (words 3)) text_of
                parse_fails (request (Some (words 9)) "short" None "neutral"))
      as (_ & H2 & _).
    rewrite (H2 (words 9) eq_refl Hnb eq_refl). reflexivity.
  - destruct (summarize_checks (Some (lit "key")) jsstring
                (constant_model (words 3)) text_of
                parse_fails (request (Some (words 9)) "short" None "neutral"))
      as (_ & _ & H3).
    exact (proj2 (H3 (words 9) eq_refl Hnb eq_refl)).
Defined.

(** C3 as stated fails when both checks fail: without credential and with
    an empty text the answer is the 400 of the first check, not a 500. *)
Lemma unset_key_with_empty_text_is_400 :
  POST None jsstring (constant_model (words 3)) text_of parse_fails
       (Some (request (Some []) "short" None "neutral")) =
    json_error "No text provided for summarization" 400 /\
  status (POST None jsstring (constant_model (words 3)) text_of parse_fails
            (Some (request (Some []) "short" None "neutral"))) <> 500%Z.
Proof. split; [reflexivity | discriminate]. Qed.


(** C4.  When the text of the highlight response has no opening brace
    followed by a closing brace, or when the brace-delimited text that was
    matched does not parse as JSON, the highlights of the response are
    [{ keywords: [], names: [], dates: [] }] and the request succeeds with
    200 and the generated summary. *)
Theorem highlights_fall_back
    (key : option jsstring) (G : Type) (gen : jsstring -> option G)
    (rtext : G -> option jsstring) (parse : jsstring -> option json)
    (req : SummarizeRequest) (t summary h : jsstring) (r1 r2 : G) :
  text req = Some t -> trim t <> [] -> truthy key = true ->
  gen (buildPrompt req t) = Some r1 -> rtext r1 = Some summary ->
  gen (highlightPrompt t) = Some r2 -> rtext r2 = Some h ->
  ((~ exists a b c, h = a ++ OPEN_BRACE :: b ++ CLOSE_BRACE :: c) \/
   (exists m, match_braces h = Some m /\ parse m = None)) ->
  let resp := POST key G gen rtext parse (Some req) in
  status resp = 200%Z /\
  field "summary" resp = Some (VStr summary) /\
  field "highlights" resp =
    Some (VJson (JObject [(lit "keywords", JArray []);
                          (lit "names", JArray []);
                          (lit "dates", JArray [])])).
Proof.
  intros Ht Hnb%isBlank_false Hk Hg Hs Hh Hht Hcase. cbv zeta.
  rewrite (POST_success key G gen rtext parse req t summary r1 r2
             Ht Hnb Hk Hg Hs Hh).
  split; [reflexivity|]. split; [reflexivity|].
  unfold field. simpl. unfold parseHighlights. rewrite Hht.
  destruct Hcase as [Hno | (m & Hm & Hp)].
  - apply match_braces_none in Hno. rewrite Hno. reflexivity.
  - rewrite Hm, Hp. reflexivity.
Qed.

(** C4 on a highlight response without braces. *)
Lemma highlights_fall_back_witness :
  field "highlights"
    (POST (Some (lit "key")) jsstring (constant_model (lit "no json here"))
          text_of parse_fails
          (Some (request (Some (words 9)) "bullet" None "neutral")))
  = Some (VJson emptyHighlights).
Proof.
  assert (Hnb : trim (words 9) <> [])
    by (intros H; vm_compute in H; discriminate H).
  assert (Hno : ~ exists a b c,
             lit "no json here" = a ++ OPEN_BRACE :: b ++ CLOSE_BRACE :: c).
  { apply match_braces_none. reflexivity. }
  exact (proj2 (proj2
    (highlights_fall_back (Some (lit "key")) jsstring
       (constant_model (lit "no json here")) text_of parse_fails
       (request (Some (words 9)) "bullet" None "neutral")
       (words 9) (lit "no json here") (lit "no json here")
       (lit "no json here") (lit "no json here")
       eq_refl Hnb eq_refl eq_refl eq_refl eq_refl eq_refl
       (or_introl Hno)))).
Defined.

(** A phrase of the prompt survives the tone sentence put before it. *)
Lemma includes_app_l (pre hay needle : jsstring) :
  includes hay needle -> includes (pre ++ hay) needle.
Proof.
  intros (a & b & ->). exists (pre ++ a), b. rewrite <- app_assoc. reflexivity.
Qed.

Lemma includes_withTone (tone : option jsstring) (prompt needle : jsstring) :
  includes prompt needle -> includes (withTone tone prompt) needle.
Proof.
  intros H. unfold withTone.
  destruct tone as [[|c t]|]; try exact H.
  destruct (negb (streq (c :: t) (lit "neutral"))); [|exact H].
  apply includes_app_l, includes_app_l. exact H.
Qed.

Lemma basePrompt_custom (customLength : option Z) (text : jsstring) :
  basePrompt (Some (lit "custom")) customLength text =
  lit "Please summarize the following text in "
    ++ (lit "approximately " ++ Number_toString (targetWords customLength)
          ++ lit " words")
    ++ lit ". Maintain the essential information while being concise:"
    ++ [LF; LF] ++ text.
Proof.
  unfold basePrompt.
  change (streq (lit "custom") (lit "short")) with false.
  change (streq (lit "custom") (lit "bullet")) with false.
  change (streq (lit "custom") (lit "custom")) with true.
  cbv iota zeta.
  change (lit "Please summarize the following text in approximately ")
    with (lit "Please summarize the following text in " ++ lit "approximately ").
  change (lit " words. Maintain the essential information while being concise:")
    with (lit " words" ++ lit ". Maintain the essential information while being concise:").
  rewrite <- !app_assoc. reflexivity.
Qed.

(** C5, as amended.  For a summarize request of type [custom] the prompt
    sent to the model contains the phrase [approximately 200 words] when
    customLength is unset or 0, and the phrase [approximately N words] when
    customLength is an integer N other than 0 (N in the safe range, where
    the engine prints an integer as its decimal numeral). *)
Theorem custom_prompt_length (req : SummarizeRequest) (text : jsstring) :
  summaryType req = Some (lit "custom") ->
  ((customLength req = None \/ customLength req = Some 0%Z) ->
     includes (buildPrompt req text) (lit "approximately 200 words")) /\
  (forall N : Z, customLength req = Some N -> N <> 0%Z ->
     (Z.abs N < 2 ^ 53)%Z ->
     includes (buildPrompt req text)
              (lit "approximately " ++ Number_toString N ++ lit " words")).
Proof.
  intros Hty. unfold buildPrompt. rewrite Hty. split.
  - intros Hc. apply includes_withTone. rewrite basePrompt_custom.
    assert (Ht : targetWords (customLength req) = 200%Z)
      by (destruct Hc as [-> | ->]; reflexivity).
    rewrite Ht. eexists _, _. reflexivity.
  - intros N Hc Hne _. apply includes_withTone. rewrite basePrompt_custom.
    assert (Ht : targetWords (customLength req) = N).
    { rewrite Hc. unfold targetWords.
      destruct (Z.eqb_spec N 0); [contradiction | reflexivity]. }
    rewrite Ht. eexists _, _. reflexivity.
Qed.

(** The amended C5 on a professional request for 350 words and on a casual
    request without length. *)
Lemma custom_prompt_length_witness :
  includes (buildPrompt (request (Some (words 9)) "custom" (Some 350%Z)
                                 "professional") (words 9))
           (lit "approximately 350 words") /\
  includes (buildPrompt (request (Some (words 9)) "custom" None "casual")
                        (words 9))
           (lit "approximately 200 words").
Proof.
  split.
  - assert (Hne : 350%Z <> 0%Z) by discriminate.
    assert (Hsafe : (Z.abs 350 < 2 ^ 53)%Z) by reflexivity.
    exact (proj2 (custom_prompt_length
                    (request (Some (words 9)) "custom" (Some 350%Z) "professional")
                    (words 9) eq_refl) 350%Z eq_refl Hne Hsafe).
  - exact (proj1 (custom_prompt_length
                    (request (Some (words 9)) "custom" None "casual")
                    (words 9) eq_refl) (or_introl eq_refl)).
Defined.

(** C5 as stated fails for N = 0: with customLength set to 0 the prompt
    asks for approximately 200 words and nowhere for approximately 0
    words. *)
Lemma custom_length_zero_asks_for_200 :
  customLength (request (Some (lit "hi")) "custom" (Some 0%Z) "neutral") = Some 0%Z /\
  buildPrompt (request (Some (lit "hi")) "custom" (Some 0%Z) "neutral") (lit "hi") =
    lit "Please summarize the following text in approximately 200 words. Maintain the essential information while being concise:"
      ++ [LF; LF] ++ lit "hi" /\
  ~ includes (buildPrompt (request (Some (lit "hi")) "custom" (Some 0%Z) "neutral")
                          (lit "hi"))
             (lit "approximately " ++ Number_toString 0 ++ lit " words").
Proof.
  split; [reflexivity|]. split; [reflexivity|].
  intros H. apply includes_includesb in H. vm_compute in H. discriminate H.
Qed.

(** C6.  With tone [neutral] the prompt is the prompt of the summary type
    alone, no tone sentence is put before it; with tone [professional],
    [casual] or [academic] it is one fixed sentence of that tone, a space,
    and the same prompt of the summary type, unchanged. *)
Theorem tone_instruction (tx styp : option jsstring) (cl : option Z)
    (text : jsstring) :
  let prompt tone := buildPrompt (mkRequest tx styp cl (Some (lit tone))) text in
  prompt "neutral"%string = basePrompt styp cl text /\
  prompt "professional"%string =
    lit "Use a professional and formal tone." ++ lit " "
      ++ basePrompt styp cl text /\
  prompt "casual"%string =
    lit "Use a casual and conversational tone." ++ lit " "
      ++ basePrompt styp cl text /\
  prompt "academic"%string =
    lit "Use an academic and scholarly tone with precise language." ++ lit " "
      ++ basePrompt styp cl text.
Proof.
  cbv zeta. unfold buildPrompt. repeat split.
Qed.

End SummarizeClaims.

(** ** The claims on the upload route *)

Section UploadClaims.

Import UploadRoute Samples.

(** The two shapes of a 200 of the route: the five members of the
    short-circuit, or those of the extraction path. *)
Lemma POST_ok_fields (mammoth : File.t -> option jsstring)
    (request : option FormData) :
  status (POST mammoth request) = 200%Z ->
  fields (POST mammoth request) =
    ["text"; "wordCount"; "fileType"; "fileName"; "fileSize"]%string \/
  fields (POST mammoth request) =
    ["success"; "text"; "filename"; "fileSize"; "wordCount"]%string.
Proof.
  unfold POST. destruct request as [data|]; [|discriminate].
  destruct (extractedText data) as [[|c e]|]; try (intros _; left; reflexivity);
    (destruct (file data) as [f|]; [|discriminate];
     destruct (negb _); [discriminate|];
     destruct (N.ltb _ _); [discriminate|];
     match goal with
     | |- context [match ?x with Some _ => _ | None => _ end] =>
         destruct x as [text|]; [|discriminate]
     end;
     destruct (isBlank text); [discriminate|];
     intros _; right; reflexivity).
Qed.

(** C7 on the code.  The 200 of the extraction path, here for [notes.txt]
    sent without pre-extracted text, has the members success, text,
    filename, fileSize and wordCount: there is no fileType and no fileName.
    The short-circuit of the same route answers with the five members
    text, wordCount, fileType, fileName and fileSize. *)
Theorem extraction_path_response_members :
  let extraction :=
    POST no_mammoth (Some {| file := Some hello_txt; extractedText := None |}) in
  let short_circuit :=
    POST no_mammoth (Some {| file := Some hello_txt;
                             extractedText := Some (lit "hello world") |}) in
  status extraction = 200%Z /\
  fields extraction =
    ["success"; "text"; "filename"; "fileSize"; "wordCount"]%string /\
  field "fileType" extraction = None /\
  field "fileName" extraction = None /\
  status short_circuit = 200%Z /\
  fields short_circuit =
    ["text"; "wordCount"; "fileType"; "fileName"; "fileSize"]%string.
Proof. cbv zeta. repeat split. Qed.

(** C8.  When the form has a non-empty [extractedText], the route answers
    200 with that text unchanged, the number of its non-empty
    white-space-delimited tokens as word count, the file type [text/plain],
    the file name [document.txt] and the file size 0, whatever the file of
    the form: none at all, one of a type that is not accepted, one beyond
    the size limit. *)
Theorem pre_extracted_short_circuit (mammoth : File.t -> option jsstring)
    (f : option File.t) (extracted : jsstring) :
  extracted <> [] ->
  POST mammoth (Some {| file := f; extractedText := Some extracted |}) =
  {| status := 200;
     body := [("text"%string, VStr extracted);
              ("wordCount"%string, VNum (Z.of_nat (tokens_spec extracted)));
              ("fileType"%string, VStr (lit "text/plain"));
              ("fileName"%string, VStr (lit "document.txt"));
              ("fileSize"%string, VNum 0)] |}.
Proof.
  intros Hne. unfold POST. simpl.
  destruct extracted as [|c e]; [contradiction Hne; reflexivity|].
  rewrite <- countWords_tokens. reflexivity.
Qed.

(** C8 on a form whose file is a 20 MB image. *)
Lemma pre_extracted_short_circuit_witness :
  POST no_mammoth (Some {| file := Some big_png;
                           extractedText := Some (lit "hello world") |}) =
  {| status := 200;
     body := [("text"%string, VStr (lit "hello world"));
              ("wordCount"%string, VNum (Z.of_nat (tokens_spec (lit "hello world"))));
              ("fileType"%string, VStr (lit "text/plain"));
              ("fileName"%string, VStr (lit "document.txt"));
              ("fileSize"%string, VNum 0)] |}.
Proof.
  assert (Hne : lit "hello world" <> []) by discriminate.
  exact (pre_extracted_short_circuit no_mammoth (Some big_png)
           (lit "hello world") Hne).
Defined.

End UploadClaims.

(** ** The claim on the history dashboard *)

Section HistoryClaims.

Import HistoryDashboard Samples.

Lemma In_filter_other (items : list HistoryItem) (itemId : jsstring)
    (item : HistoryItem) :
  In item (List.filter (fun i => negb (streq (id i) itemId)) items) <->
  In item items /\ id item <> itemId.
Proof.
  rewrite filter_In. split; intros [Hin H]; (split; [exact Hin|]).
  - apply streq_neq. apply negb_true_iff. exact H.
  - apply negb_true_iff. apply streq_neq. exact H.
Qed.

(** With distinct ids the cached list loses the one item and keeps the
    others where they were. *)
Lemma filter_removes_in_place (before after : list HistoryItem)
    (item : HistoryItem) :
  (forall other, In other (before ++ after) -> id other <> id item) ->
  List.filter (fun i => negb (streq (id i) (id item))) (before ++ item :: after) =
  before ++ after.
Proof.
  intros Hothers.
  assert (Hkeep : forall l, (forall o, In o l -> id o <> id item) ->
            List.filter (fun i => negb (streq (id i) (id item))) l = l).
  { induction l as [|x l IH]; intros H; simpl; [reflexivity|].
    assert (Hx : streq (id x) (id item) = false)
      by (apply streq_neq, H; left; reflexivity).
    rewrite Hx. simpl. f_equal. apply IH. intros o Ho. apply H. right. exact Ho. }
  rewrite List.filter_app. simpl. rewrite streq_refl. simpl.
  rewrite !Hkeep; [reflexivity | |];
    intros o Ho; apply Hothers; apply in_or_app; [right | left]; exact Ho.
Qed.

(** When the store rejects the deletion nothing changes. *)
Lemma deleteItem_rejected (st : State) (itemId : jsstring) :
  deleteItem false st itemId = st.
Proof. reflexivity. Qed.

(** C9.  A deletion that the store accepts removes the document of that id
    from the persisted collection and leaves the other documents; it
    removes the items of that id from the cached list and leaves every
    other cached item, in the order it had; and it clears the selection
    when the selected item has that id, leaving it as it was otherwise. *)
Theorem delete_history_item (st : State) (itemId : jsstring) :
  let st' := deleteItem true st itemId in
  summaries st' !! itemId = None /\
  (forall other : jsstring,
     other <> itemId -> summaries st' !! other = summaries st !! other) /\
  (forall item, In item (historyItems st') <->
                In item (historyItems st) /\ id item <> itemId) /\
  (forall before after item,
     historyItems st = before ++ item :: after -> id item = itemId ->
     (forall other, In other (before ++ after) -> id other <> itemId) ->
     historyItems st' = before ++ after) /\
  (forall sel, selectedItem st = Some sel -> id sel = itemId ->
     selectedItem st' = None) /\
  (forall sel, selectedItem st = Some sel -> id sel <> itemId ->
     selectedItem st' = Some sel) /\
  (selectedItem st = None -> selectedItem st' = None).
Proof.
  cbv zeta. unfold deleteItem, deleteDoc. simpl.
  split; [apply lookup_delete_eq|].
  split; [intros other Hne; apply lookup_delete_ne; congruence|].
  split; [intros item; apply In_filter_other|].
  split.
  { intros before after item Hitems <- Hothers. rewrite Hitems.
    apply filter_removes_in_place. exact Hothers. }
  split; [intros sel -> <-; rewrite streq_refl; reflexivity|].
  split; [|intros ->; reflexivity].
  intros sel -> Hne. apply streq_neq in Hne. rewrite Hne. reflexivity.
Qed.

(** C9 on a cache of two items: deleting the selected one clears the
    selection and leaves the other item; deleting the other one keeps the
    selection. *)
Lemma delete_history_item_witness :
  selectedItem (deleteItem true state0 (lit "a")) = None /\
  historyItems (deleteItem true state0 (lit "a")) = [item_b] /\
  selectedItem (deleteItem true state0 (lit "b")) = Some item_a.
Proof.
  destruct (delete_history_item state0 (lit "a"))
    as (_ & _ & _ & Hplace & Hsel & _ & _).
  destruct (delete_history_item state0 (lit "b"))
    as (_ & _ & _ & _ & _ & Hkeep & _).
  split; [exact (Hsel item_a eq_refl eq_refl)|].
  split.
  - apply (Hplace [] [item_b] item_a eq_refl eq_refl).
    intros other [<- | []]. discriminate.
  - apply (Hkeep item_a eq_refl). discriminate.
Defined.

End HistoryClaims.

(** * Properties of the rest of the code *)

(** ** White space, pieces and words *)

Section WhiteSpaceFacts.

Lemma trimStart_nil (s : jsstring) :
  trimStart s = [] <-> forallb isWhiteSpace s = true.
Proof.
  induction s as [|c s IH]; simpl; [split; reflexivity|].
  destruct (isWhiteSpace c); simpl; [exact IH|]. split; discriminate.
Qed.

Lemma trimEnd_nil (s : jsstring) :
  trimEnd s = [] <-> forallb isWhiteSpace s = true.
Proof.
  induction s as [|c s IH]; simpl; [split; reflexivity|].
  destruct (trimEnd s) as [|x r].
  - destruct (isWhiteSpace c); simpl.
    + split; intros _; [apply IH|]; reflexivity.
    + split; discriminate.
  - split; [discriminate|]. intros H. apply andb_prop in H as [_ H].
    apply IH in H. discriminate H.
Qed.

Lemma forallb_trimStart (s : jsstring) :
  forallb isWhiteSpace (trimStart s) = forallb isWhiteSpace s.
Proof.
  induction s as [|c s IH]; simpl; [reflexivity|].
  destruct (isWhiteSpace c) eqn:E; simpl; [exact IH|]. rewrite E. reflexivity.
Qed.

Lemma trim_nil (s : jsstring) :
  trim s = [] <-> forallb isWhiteSpace s = true.
Proof.
  unfold trim. rewrite trimEnd_nil, forallb_trimStart. reflexivity.
Qed.

Lemma isBlank_forallb (s : jsstring) : isBlank s = forallb isWhiteSpace s.
Proof.
  destruct (forallb isWhiteSpace s) eqn:E.
  - apply isBlank_true, trim_nil, E.
  - destruct (isBlank s) eqn:B; [|reflexivity].
    apply isBlank_true, trim_nil in B. congruence.
Qed.

Lemma isBlank_app (a b : jsstring) : isBlank (a ++ b) = isBlank a && isBlank b.
Proof. rewrite !isBlank_forallb. apply forallb_app. Qed.

Lemma count_runs_zero (s : jsstring) :
  count_runs true s = 0 <-> forallb isWhiteSpace s = true.
Proof.
  induction s as [|c s IH]; simpl; [split; reflexivity|].
  destruct (isWhiteSpace c); simpl; [exact IH|]. split; discriminate.
Qed.

(** The word count is 0 exactly for a text that is empty after trimming. *)
Lemma countWords_zero (s : jsstring) : countWords s = 0 <-> trim s = [].
Proof. rewrite countWords_tokens, trim_nil. apply count_runs_zero. Qed.

Lemma count_runs_flag (s : jsstring) :
  count_runs true s + leadingGap s = 1 + count_runs false s.
Proof.
  destruct s as [|c s]; simpl; [reflexivity|].
  destruct (isWhiteSpace c); simpl; lia.
Qed.

Lemma split_go_length (s tok : jsstring) (inws : bool) :
  length (split_go tok inws s) =
  (if inws then count_runs true s else 1 + count_runs false s) +
  (if ends_ws inws s then 1 else 0).
Proof.
  revert tok inws. induction s as [|c s IH]; intros tok inws; simpl.
  - destruct inws; reflexivity.
  - destruct (isWhiteSpace c).
    + destruct inws; simpl; rewrite IH; lia.
    + rewrite IH. destruct inws; lia.
Qed.

(** X1.  [text.split(/\s+/).length], the word count of the summarize
    route, is the filtered word count of the extraction plus one for a
    text that starts with white space (or is empty) and one for a text
    that ends with white space: never less, and at most two more. *)
Theorem pieces_against_words (s : jsstring) :
  countPieces s = countWords s + leadingGap s + trailingGap s /\
  countWords s <= countPieces s <= countWords s + 2.
Proof.
  assert (E : countPieces s = countWords s + leadingGap s + trailingGap s).
  { unfold countPieces, split_ws. rewrite split_go_length.
    rewrite countWords_tokens. unfold tokens_spec, trailingGap.
    pose proof (count_runs_flag s). lia. }
  split; [exact E|].
  assert (leadingGap s <= 1)
    by (destruct s as [|c s]; simpl; [|destruct (isWhiteSpace c)]; lia).
  assert (trailingGap s <= 1)
    by (unfold trailingGap; destruct (ends_ws false s); lia).
  lia.
Qed.

End WhiteSpaceFacts.

(** ** More on the extraction helpers *)

Section ExtractionFacts.

Import FileExtractor DocumentSummarizer Samples MoreSamples.

Lemma capText_not_blank (t : jsstring) :
  isBlank t = false -> isBlank (capText t) = false.
Proof.
  intros H. unfold capText. destruct (N.ltb _ _); [|exact H].
  rewrite isBlank_app. apply andb_false_r.
Qed.

Lemma capText_length (t : jsstring) : (jslength (capText t) <= 100003)%N.
Proof.
  unfold capText, jslength, substring0.
  destruct (N.ltb_spec MAX_CHARS (N.of_nat (length t))) as [H|H].
  - rewrite length_app, length_firstn.
    change (length (lit "...")) with 3. unfold MAX_CHARS in *. lia.
  - unfold MAX_CHARS in *. lia.
Qed.

Lemma count_runs_flags (s : jsstring) :
  count_runs false s <= count_runs true s <= count_runs false s + 1.
Proof. destruct s as [|c s]; simpl; [lia|]. destruct (isWhiteSpace c); lia. Qed.

Lemma count_runs_app (a c : jsstring) (b : bool) :
  count_runs b (a ++ c) <= count_runs b a + count_runs true c.
Proof.
  revert b. induction a as [|x a IH]; intros b; simpl.
  - pose proof (count_runs_flags c). destruct b; lia.
  - destruct (isWhiteSpace x); [apply IH|]. specialize (IH false). lia.
Qed.

Lemma count_runs_firstn (n : nat) (s : jsstring) (b : bool) :
  count_runs b (firstn n s) <= count_runs b s.
Proof.
  revert n b. induction s as [|x s IH]; intros [|n] b; simpl; try lia.
  destruct (isWhiteSpace x); [apply IH|]. specialize (IH n false). lia.
Qed.

(** Capping a text adds at most the marker to its words. *)
Lemma countWords_capText (t : jsstring) :
  countWords (capText t) <= countWords t + 1.
Proof.
  unfold capText. destruct (N.ltb _ _); [|lia].
  rewrite !countWords_tokens. unfold tokens_spec, substring0.
  pose proof (count_runs_app (firstn (N.to_nat MAX_CHARS) t) (lit "...") true).
  pose proof (count_runs_firstn (N.to_nat MAX_CHARS) t true).
  change (count_runs true (lit "...")) with 1 in *. lia.
Qed.

Lemma countWords_pos (t : jsstring) : isBlank t = false -> 1 <= countWords t.
Proof.
  intros H. destruct (countWords t) eqn:E; [|lia].
  apply countWords_zero, isBlank_true in E. congruence.
Qed.

Lemma extractTextFromFile_Ok_inv (f : File.t) (r : FileExtractionResult) :
  extractTextFromFile f = Ok r ->
  File.type f = TXT /\ isBlank (File.text f) = false.
Proof.
  unfold extractTextFromFile. intros Hr.
  destruct (streq (File.type f) DOCX); [discriminate|].
  destruct (streq (File.type f) TXT) eqn:Et; [|discriminate].
  destruct (isBlank (File.text f)) eqn:Eb; [discriminate|].
  split; [apply streq_eq, Et | reflexivity].
Qed.

(** X2.  [extractTextFromFile] decides by the declared type first: a Word
    document is refused whatever its content, a type other than Word and
    plain text is unsupported, a plain text that is empty after trimming
    has no text to extract, and a result is returned exactly for a plain
    text that is not empty after trimming. *)
Theorem extractTextFromFile_outcomes (f : File.t) :
  (File.type f = DOCX ->
     extractTextFromFile f =
     Throw (lit "DOCX processing requires server-side extraction")) /\
  (File.type f <> DOCX -> File.type f <> TXT ->
     extractTextFromFile f = Throw (lit "Unsupported file type")) /\
  (File.type f = TXT -> trim (File.text f) = [] ->
     extractTextFromFile f =
     Throw (lit "No text could be extracted from the file")) /\
  ((exists r, extractTextFromFile f = Ok r) <->
   File.type f = TXT /\ trim (File.text f) <> []).
Proof.
  split; [|split; [|split]].
  - intros H. unfold extractTextFromFile. rewrite H, streq_refl. reflexivity.
  - intros H1%streq_neq H2%streq_neq. unfold extractTextFromFile.
    rewrite H1, H2. reflexivity.
  - intros H Hb%isBlank_true. apply extractTextFromFile_blank; assumption.
  - split.
    + intros [r Hr]. unfold extractTextFromFile in Hr.
      destruct (streq (File.type f) DOCX); [discriminate|].
      destruct (streq (File.type f) TXT) eqn:Et; [|discriminate].
      destruct (isBlank (File.text f)) eqn:Eb; [discriminate|].
      split; [apply streq_eq, Et | apply isBlank_false, Eb].
    + intros [Ht Hnb%isBlank_false]. eexists.
      apply extractTextFromFile_txt; assumption.
Qed.

(** X2 on a Word document with readable bytes and on [notes.txt]. *)
Lemma extractTextFromFile_outcomes_witness :
  extractTextFromFile report_docx =
    Throw (lit "DOCX processing requires server-side extraction") /\
  extractTextFromFile big_png = Throw (lit "Unsupported file type") /\
  extractTextFromFile blank_txt =
    Throw (lit "No text could be extracted from the file") /\
  exists r, extractTextFromFile hello_txt = Ok r.
Proof.
  split; [|split; [|split]].
  - exact (proj1 (extractTextFromFile_outcomes report_docx) eq_refl).
  - apply (proj1 (proj2 (extractTextFromFile_outcomes big_png)));
      intros H; vm_compute in H; discriminate H.
  - exact (proj1 (proj2 (proj2 (extractTextFromFile_outcomes blank_txt)))
             eq_refl eq_refl).
  - apply (proj2 (proj2 (proj2 (extractTextFromFile_outcomes hello_txt)))).
    split; [reflexivity|]. intros H; vm_compute in H; discriminate H.
Defined.

(** X3.  Every result of [extractTextFromFile] is a plain-text result
    with the name and size of the file, a text that is not empty after
    trimming and has at most 100,003 characters, and a word count of at
    least 1. *)
Theorem extractTextFromFile_result (f : File.t) (r : FileExtractionResult) :
  extractTextFromFile f = Ok r ->
  fileType r = TXT /\ fileName r = File.name f /\ fileSize r = File.size f /\
  trim (text r) <> [] /\ (jslength (text r) <= 100003)%N /\ 1 <= wordCount r.
Proof.
  intros Hr.
  destruct (extractTextFromFile_Ok_inv f r Hr) as [Hty Hnb].
  rewrite (extractTextFromFile_txt f Hty Hnb) in Hr. injection Hr as <-. simpl.
  split; [exact Hty|]. split; [reflexivity|]. split; [reflexivity|].
  split; [apply isBlank_false, capText_not_blank, Hnb|].
  split; [apply capText_length|].
  apply countWords_pos, capText_not_blank, Hnb.
Qed.

Lemma extractTextFromFile_result_witness :
  exists r, extractTextFromFile hello_txt = Ok r /\
            (jslength (text r) <= 100003)%N /\ 1 <= wordCount r.
Proof.
  eexists. split; [reflexivity|].
  pose proof (extractTextFromFile_result hello_txt _ eq_refl)
    as (_ & _ & _ & _ & Hlen & Hwc).
  split; [exact Hlen | exact Hwc].
Defined.

(** X4.  On every plain-text file that is not empty after trimming, of
    whatever length, the exported function and the inline branch of
    [handleFileSelect] return the same text, file type, file name and file
    size; the word count of the exported function, taken after the cap, is
    at most one more than the inline one, taken before. *)
Theorem client_extractions_compare (f : File.t) :
  File.type f = TXT -> trim (File.text f) <> [] ->
  exists r1 r2,
    extractTextFromFile f = Ok r1 /\ handleFileSelect_client f = Extracted r2 /\
    text r1 = text r2 /\ fileType r1 = fileType r2 /\
    fileName r1 = fileName r2 /\ fileSize r1 = fileSize r2 /\
    wordCount r1 <= wordCount r2 + 1.
Proof.
  intros Hty Hnb%isBlank_false.
  eexists _, _. split; [apply extractTextFromFile_txt; assumption|].
  split; [apply handleFileSelect_client_txt; assumption|]. simpl.
  split; [reflexivity|]. split; [reflexivity|]. split; [reflexivity|].
  split; [reflexivity|]. apply countWords_capText.
Qed.

Lemma client_extractions_compare_witness :
  exists r1 r2,
    extractTextFromFile hello_txt = Ok r1 /\
    handleFileSelect_client hello_txt = Extracted r2 /\
    text r1 = text r2 /\ wordCount r1 <= wordCount r2 + 1.
Proof.
  assert (Hnb : trim (File.text hello_txt) <> [])
    by (intros H; vm_compute in H; discriminate H).
  destruct (client_extractions_compare hello_txt eq_refl Hnb)
    as (r1 & r2 & H1 & H2 & H3 & _ & _ & _ & H4).
  exists r1, r2. split; [exact H1|]. split; [exact H2|].
  split; [exact H3 | exact H4].
Defined.

End ExtractionFacts.

(** ** More on the upload route *)

Section UploadFacts.

Import UploadRoute Samples MoreSamples.

(** The text the extraction path works on: the converter's for a Word
    document, the decoded bytes for a plain text. *)
Lemma POST_extraction_path (mammoth : File.t -> option jsstring)
    (data : FormData) (f : File.t) (t : jsstring) :
  truthy (extractedText data) = false -> file data = Some f ->
  (File.size f <= 10 * 1024 * 1024)%N ->
  (File.type f = DOCX /\ mammoth f = Some t \/
   File.type f = TXT /\ File.buffer_utf8 f = t) ->
  POST mammoth (Some data) =
  if isBlank t then json_error "No text could be extracted from the file" 400
  else json_ok [("success"%string, VBool true);
                ("text"%string, VStr (capText t));
                ("filename"%string, VStr (File.name f));
                ("fileSize"%string, VNum (Z.of_N (File.size f)));
                ("wordCount"%string, VNum (Z.of_nat (countWords (capText t))))].
Proof.
  intros He Hf Hsz%N.ltb_ge Hsrc. unfold POST.
  destruct (extractedText data) as [[|c e]|]; try discriminate He;
    rewrite Hf; destruct Hsrc as [[Hty Hm] | [Hty <-]]; rewrite Hty;
    try rewrite streq_refl; try rewrite TXT_not_DOCX; simpl negb; cbv iota;
    rewrite Hsz; try rewrite Hm; reflexivity.
Qed.

Lemma upload_status_cases (mammoth : File.t -> option jsstring)
    (request : option FormData) :
  status (POST mammoth request) = 200%Z \/
  (status (POST mammoth request) = 400%Z \/
   status (POST mammoth request) = 500%Z) /\
  fields (POST mammoth request) = ["error"%string].
Proof.
  destruct request as [data|]; [|right; split; [right|]; reflexivity].
  unfold POST.
  destruct (extractedText data) as [[|c e]|]; try (left; reflexivity);
    (destruct (file data) as [f|]; [|right; split; [left|]; reflexivity];
     destruct (negb _); [right; split; [left|]; reflexivity|];
     destruct (N.ltb _ _); [right; split; [left|]; reflexivity|];
     match goal with
     | |- context [match ?x with Some _ => _ | None => _ end] =>
         destruct x as [text|]; [|right; split; [right|]; reflexivity]
     end;
     destruct (isBlank text); [right; split; [left|]; reflexivity|];
     left; reflexivity).
Qed.

(** X5.  Every answer of [POST /api/upload] is a 200, or a 400 or 500
    whose body has the one member [error]. *)
Theorem upload_statuses (mammoth : File.t -> option jsstring)
    (request : option FormData) :
  status (POST mammoth request) = 200%Z \/
  (status (POST mammoth request) = 400%Z \/
   status (POST mammoth request) = 500%Z) /\
  fields (POST mammoth request) = ["error"%string].
Proof. apply upload_status_cases. Qed.

Lemma POST_200_cases (mammoth : File.t -> option jsstring)
    (data : FormData) :
  status (POST mammoth (Some data)) = 200%Z ->
  truthy (extractedText data) = true \/
  exists f t, file data = Some f /\ (File.size f <= 10 * 1024 * 1024)%N /\
              trim t <> [] /\
              (File.type f = DOCX /\ mammoth f = Some t \/
               File.type f = TXT /\ File.buffer_utf8 f = t).
Proof.
  destruct (truthy (extractedText data)) eqn:He; [intros _; left; reflexivity|].
    intros H. right. revert H. unfold POST.
    destruct (extractedText data) as [[|c e]|]; try discriminate He;
      (destruct (file data) as [f|]; [|discriminate];
       destruct (streq (File.type f) DOCX) eqn:Ed;
       [ apply streq_eq in Ed; simpl negb; cbv iota;
         destruct (N.ltb_spec (10 * 1024 * 1024) (File.size f)); [discriminate|];
         destruct (mammoth f) as [t|] eqn:Em; [|discriminate];
         destruct (isBlank t) eqn:Eb; [discriminate|];
         intros _; exists f, t; repeat split;
           [assumption | apply isBlank_false, Eb | left; split; assumption]
       | destruct (streq (File.type f) TXT) eqn:Et; [|discriminate];
         apply streq_eq in Et; simpl negb; cbv iota;
         destruct (N.ltb_spec (10 * 1024 * 1024) (File.size f)); [discriminate|];
         destruct (isBlank (File.buffer_utf8 f)) eqn:Eb; [discriminate|];
         intros _; exists f, (File.buffer_utf8 f); repeat split;
           [assumption | apply isBlank_false, Eb | right; split; [assumption | reflexivity]] ]).
Qed.

(** X6.  [POST /api/upload] answers 200 exactly when the form has a
    non-empty pre-extracted text, or has a file of at most 10 MB that is a
    Word document the converter reads or a plain text, with a text that is
    not empty after trimming. *)
Theorem upload_succeeds_iff (mammoth : File.t -> option jsstring)
    (data : FormData) :
  status (POST mammoth (Some data)) = 200%Z <->
  truthy (extractedText data) = true \/
  exists f t, file data = Some f /\ (File.size f <= 10 * 1024 * 1024)%N /\
              trim t <> [] /\
              (File.type f = DOCX /\ mammoth f = Some t \/
               File.type f = TXT /\ File.buffer_utf8 f = t).
Proof.
  split.
  - apply POST_200_cases.
  - intros [He | (f & t & Hf & Hsz & Hnb%isBlank_false & Hsrc)].
    + unfold POST. destruct (extractedText data) as [[|c e]|];
        [discriminate He | reflexivity | discriminate He].
    + destruct (truthy (extractedText data)) eqn:He.
      * unfold POST. destruct (extractedText data) as [[|c e]|];
          [discriminate He | reflexivity | discriminate He].
      * rewrite (POST_extraction_path mammoth data f t He Hf Hsz Hsrc), Hnb.
        reflexivity.
Qed.

(** X6 on a Word document that the converter reads. *)
Lemma upload_succeeds_iff_witness :
  status (POST mammoth_reads
            (Some {| file := Some report_docx; extractedText := None |})) = 200%Z.
Proof.
  apply (proj2 (upload_succeeds_iff mammoth_reads
                  {| file := Some report_docx; extractedText := None |})).
  right. exists report_docx, (lit "quarterly report").
  split; [reflexivity|].
  split; [intros H; vm_compute in H; discriminate H|].
  split; [intros H; vm_compute in H; discriminate H|].
  left. split; reflexivity.
Defined.

Lemma upload_extraction_200 (mammoth : File.t -> option jsstring)
    (data : FormData) :
  truthy (extractedText data) = false ->
  status (POST mammoth (Some data)) = 200%Z ->
  exists (t : jsstring) (wc : nat) (size : N),
    field "text" (POST mammoth (Some data)) = Some (VStr t) /\
    field "wordCount" (POST mammoth (Some data)) = Some (VNum (Z.of_nat wc)) /\
    field "fileSize" (POST mammoth (Some data)) = Some (VNum (Z.of_N size)) /\
    trim t <> [] /\ (jslength t <= 100003)%N /\ 1 <= wc /\
    (size <= 10 * 1024 * 1024)%N.
Proof.
  intros He Hok.
  destruct (POST_200_cases mammoth data Hok)
    as [Ht | (f & t & Hf & Hsz & Hnb%isBlank_false & Hsrc)]; [congruence|].
  rewrite (POST_extraction_path mammoth data f t He Hf Hsz Hsrc), Hnb.
  exists (capText t), (countWords (capText t)), (File.size f).
  split; [reflexivity|]. split; [reflexivity|]. split; [reflexivity|].
  split; [apply isBlank_false, capText_not_blank, Hnb|].
  split; [apply capText_length|].
  split; [apply countWords_pos, capText_not_blank, Hnb | exact Hsz].
Qed.

(** X7.  A 200 of the extraction path, for a plain text or a Word document
    alike, carries a text that is not empty after trimming and has at most
    100,003 characters, a word count of at least 1, and the size of a file
    that is within the limit. *)
Theorem upload_extraction_result (mammoth : File.t -> option jsstring)
    (data : FormData) :
  truthy (extractedText data) = false ->
  status (POST mammoth (Some data)) = 200%Z ->
  exists (t : jsstring) (wc : nat) (size : N),
    field "text" (POST mammoth (Some data)) = Some (VStr t) /\
    field "wordCount" (POST mammoth (Some data)) = Some (VNum (Z.of_nat wc)) /\
    field "fileSize" (POST mammoth (Some data)) = Some (VNum (Z.of_N size)) /\
    trim t <> [] /\ (jslength t <= 100003)%N /\ 1 <= wc /\
    (size <= 10 * 1024 * 1024)%N.
Proof. apply upload_extraction_200. Qed.

Lemma upload_extraction_result_witness :
  exists (t : jsstring) (wc : nat),
    field "text" (POST mammoth_reads
                    (Some {| file := Some report_docx; extractedText := None |}))
      = Some (VStr t) /\
    (jslength t <= 100003)%N /\ 1 <= wc.
Proof.
  destruct (upload_extraction_result mammoth_reads
              {| file := Some report_docx; extractedText := None |}
              eq_refl eq_refl)
    as (t & wc & size & Ht & _ & _ & _ & Hlen & Hwc & _).
  exists t, wc. split; [exact Ht|]. split; [exact Hlen | exact Hwc].
Defined.

(** X8.  The short-circuit applies no blank check: for a non-empty
    pre-extracted text the word count of the 200 is 0 exactly when the
    text is empty after trimming. *)
Theorem short_circuit_blank (mammoth : File.t -> option jsstring)
    (f : option File.t) (extracted : jsstring) :
  extracted <> [] ->
  (field "wordCount"
     (POST mammoth (Some {| file := f; extractedText := Some extracted |}))
   = Some (VNum 0) <-> trim extracted = []).
Proof.
  intros Hne. rewrite <- countWords_zero. unfold POST. simpl.
  destruct extracted as [|c e]; [contradiction Hne; reflexivity|].
  unfold field. simpl. split.
  - intros H. injection H as H. lia.
  - intros ->. reflexivity.
Qed.

Lemma short_circuit_blank_witness :
  field "wordCount"
    (POST no_mammoth (Some {| file := Some hello_txt;
                              extractedText := Some [32; 10]%N |}))
  = Some (VNum 0).
Proof.
  assert (Hne : [32; 10]%N <> []) by discriminate.
  exact (proj2 (short_circuit_blank no_mammoth (Some hello_txt) [32; 10]%N Hne)
           eq_refl).
Defined.

Lemma POST_too_large (mammoth : File.t -> option jsstring) (f : File.t) :
  File.type f = DOCX \/ File.type f = TXT ->
  (10 * 1024 * 1024 < File.size f)%N ->
  POST mammoth (Some {| file := Some f; extractedText := None |}) =
  json_error "File too large" 400.
Proof.
  intros Hty Hsz%N.ltb_lt. unfold POST. simpl.
  destruct Hty as [-> | ->]; [rewrite streq_refl | rewrite TXT_not_DOCX, streq_refl];
    simpl negb; cbv iota; rewrite Hsz; reflexivity.
Qed.

(** X9.  Without a pre-extracted text the route rejects in this order: no
    file; a type that is neither Word nor plain text, whatever the size; a
    file over 10 MB, whatever its content; a Word document the converter
    fails on, with a 500; a text that is empty after trimming. *)
Theorem upload_rejections (mammoth : File.t -> option jsstring)
    (data : FormData) :
  truthy (extractedText data) = false ->
  (file data = None ->
     POST mammoth (Some data) = json_error "No file uploaded" 400) /\
  (forall f, file data = Some f ->
     File.type f <> DOCX -> File.type f <> TXT ->
     POST mammoth (Some data) =
     json_error "Invalid file type. Please upload DOCX or TXT files for server-side processing." 400) /\
  (forall f, file data = Some f ->
     File.type f = DOCX \/ File.type f = TXT ->
     (10 * 1024 * 1024 < File.size f)%N ->
     POST mammoth (Some data) = json_error "File too large" 400) /\
  (forall f, file data = Some f -> File.type f = DOCX ->
     (File.size f <= 10 * 1024 * 1024)%N -> mammoth f = None ->
     POST mammoth (Some data) =
     json_error "Failed to extract text from file" 500) /\
  (forall f t, file data = Some f -> (File.size f <= 10 * 1024 * 1024)%N ->
     (File.type f = DOCX /\ mammoth f = Some t \/
      File.type f = TXT /\ File.buffer_utf8 f = t) ->
     trim t = [] ->
     POST mammoth (Some data) =
     json_error "No text could be extracted from the file" 400).
Proof.
  intros He.
  assert (Hpost : POST mammoth (Some data) =
            match file data with
            | None => json_error "No file uploaded" 400
            | Some f => POST mammoth (Some {| file := Some f; extractedText := None |})
            end).
  { unfold POST. simpl.
    destruct (extractedText data) as [[|c e]|]; try discriminate He;
      destruct (file data); reflexivity. }
  rewrite Hpost. clear Hpost.
  split; [intros ->; reflexivity|].
  split.
  { intros f -> H1%streq_neq H2%streq_neq. unfold POST. simpl.
    rewrite H1, H2. reflexivity. }
  split.
  { intros f -> Hty Hsz%N.ltb_lt. unfold POST. simpl.
    destruct Hty as [-> | ->]; [rewrite streq_refl | rewrite TXT_not_DOCX, streq_refl];
      simpl negb; cbv iota; rewrite Hsz; reflexivity. }
  split.
  { intros f -> Hty Hsz%N.ltb_ge Hm. unfold POST. simpl.
    rewrite Hty, streq_refl. simpl negb. cbv iota. rewrite Hsz, Hm. reflexivity. }
  intros f t -> Hsz Hsrc Hb%isBlank_true.
  rewrite (POST_extraction_path mammoth
             {| file := Some f; extractedText := None |} f t
             eq_refl eq_refl Hsz Hsrc), Hb.
  reflexivity.
Qed.

(** X9 on a 20 MB image: the type is refused before the size is looked
    at. *)
Lemma upload_rejections_witness :
  POST no_mammoth (Some {| file := Some big_png; extractedText := None |}) =
  json_error "Invalid file type. Please upload DOCX or TXT files for server-side processing." 400.
Proof.
  apply (proj1 (proj2 (upload_rejections no_mammoth
                         {| file := Some big_png; extractedText := None |}
                         eq_refl)) big_png eq_refl);
    intros H; vm_compute in H; discriminate H.
Defined.

End UploadFacts.

(** ** More on the summarize route *)

Section SummarizeRouteFacts.

Import SummarizeRoute Samples MoreSamples.

Lemma ends_with_text_app (q p text : jsstring) :
  (exists pre, p = pre ++ [LF; LF] ++ text) ->
  exists pre, q ++ p = pre ++ [LF; LF] ++ text.
Proof.
  intros [pre ->]. exists (q ++ pre). rewrite <- app_assoc. reflexivity.
Qed.

Lemma basePrompt_ends_with_text (styp : option jsstring) (cl : option Z)
    (text : jsstring) :
  exists pre, basePrompt styp cl text = pre ++ [LF; LF] ++ text.
Proof.
  unfold basePrompt.
  destruct styp as [ty|]; [|eexists; reflexivity].
  destruct (streq ty (lit "short")); [eexists; reflexivity|].
  destruct (streq ty (lit "bullet")); [eexists; reflexivity|].
  destruct (streq ty (lit "custom")); [|eexists; reflexivity].
  cbv zeta. do 3 apply ends_with_text_app. exists []. reflexivity.
Qed.

(** X10.  Whatever the summary type, length and tone, the prompt sent to
    the model ends with two line feeds and the text of the request,
    unchanged; so does the highlight prompt. *)
Theorem prompts_end_with_text (req : SummarizeRequest) (text : jsstring) :
  (exists pre, buildPrompt req text = pre ++ [LF; LF] ++ text) /\
  (exists pre, highlightPrompt text = pre ++ [LF; LF] ++ text).
Proof.
  split.
  - unfold buildPrompt, withTone.
    pose proof (basePrompt_ends_with_text (summaryType req) (customLength req) text)
      as Hbase.
    destruct (tone req) as [[|c t]|]; try exact Hbase.
    destruct (negb (streq (c :: t) (lit "neutral"))); [|exact Hbase].
    do 2 apply ends_with_text_app. exact Hbase.
  - unfold highlightPrompt. do 13 apply ends_with_text_app.
    exists []. reflexivity.
Qed.

(** X11.  The custom length matters for the type [custom] only: for any
    other summary type, or none, two requests that differ in the custom
    length get the same prompt; and a type that is none of [short],
    [bullet] and [custom] gets the prompt for a comprehensive summary. *)
Theorem custom_length_only_for_custom
    (tx styp tn : option jsstring) (text : jsstring) :
  styp <> Some (lit "custom") ->
  (forall cl1 cl2 : option Z,
     buildPrompt (mkRequest tx styp cl1 tn) text =
     buildPrompt (mkRequest tx styp cl2 tn) text) /\
  (styp <> Some (lit "short") -> styp <> Some (lit "bullet") ->
   forall cl : option Z,
     basePrompt styp cl text =
     lit "Please provide a comprehensive summary of the following text, highlighting the main points and key information:"
       ++ [LF; LF] ++ text).
Proof.
  intros Hc.
  assert (Hcustom : forall ty, styp = Some ty -> streq ty (lit "custom") = false).
  { intros ty ->. apply streq_neq. congruence. }
  split.
  - intros cl1 cl2. unfold buildPrompt. simpl. f_equal.
    unfold basePrompt. destruct styp as [ty|]; [|reflexivity].
    rewrite (Hcustom ty eq_refl). reflexivity.
  - intros Hs Hb cl. unfold basePrompt. destruct styp as [ty|]; [|reflexivity].
    rewrite (Hcustom ty eq_refl).
    assert (streq ty (lit "short") = false) as -> by (apply streq_neq; congruence).
    assert (streq ty (lit "bullet") = false) as -> by (apply streq_neq; congruence).
    reflexivity.
Qed.

Lemma custom_length_only_for_custom_witness :
  buildPrompt (request (Some (words 9)) "bullet" (Some 50%Z) "casual") (words 9) =
  buildPrompt (request (Some (words 9)) "bullet" (Some 900%Z) "casual") (words 9).
Proof.
  assert (Hne : Some (lit "bullet") <> Some (lit "custom"))
    by (intros H; vm_compute in H; discriminate H).
  exact (proj1 (custom_length_only_for_custom
                  (Some (words 9)) (Some (lit "bullet")) (Some (lit "casual"))
                  (words 9) Hne) (Some 50%Z) (Some 900%Z)).
Defined.

Lemma summarize_200_inv
    (key : option jsstring) (G : Type) (gen : jsstring -> option G)
    (rtext : G -> option jsstring) (parse : jsstring -> option json)
    (req : SummarizeRequest) :
  status (POST key G gen rtext parse (Some req)) = 200%Z ->
  exists t r1 summary r2,
    text req = Some t /\ trim t <> [] /\ truthy key = true /\
    gen (buildPrompt req t) = Some r1 /\ rtext r1 = Some summary /\
    gen (highlightPrompt t) = Some r2.
Proof.
  unfold POST. destruct (text req) as [t|]; [|discriminate].
  destruct (isBlank t) eqn:Eb; [discriminate|].
  destruct (truthy key) eqn:Ek; simpl negb; cbv iota; [|discriminate].
  destruct (gen (buildPrompt req t)) as [r1|] eqn:E1; [|discriminate].
  destruct (rtext r1) as [summary|] eqn:E2; [|discriminate].
  destruct (gen (highlightPrompt t)) as [r2|] eqn:E3; [|discriminate].
  intros _. exists t, r1, summary, r2.
  repeat split; try assumption. apply isBlank_false, Eb.
Qed.

(** X12.  [POST /api/summarize] answers 200 exactly when the text is not
    empty after trimming, the credential is set, the summary call resolves
    with a readable text and the highlight call resolves; any other answer
    is a 400 or a 500 whose body has the one member [error]. *)
Theorem summarize_succeeds_iff
    (key : option jsstring) (G : Type) (gen : jsstring -> option G)
    (rtext : G -> option jsstring) (parse : jsstring -> option json)
    (req : SummarizeRequest) :
  (status (POST key G gen rtext parse (Some req)) = 200%Z <->
   exists t r1 summary r2,
     text req = Some t /\ trim t <> [] /\ truthy key = true /\
     gen (buildPrompt req t) = Some r1 /\ rtext r1 = Some summary /\
     gen (highlightPrompt t) = Some r2) /\
  (status (POST key G gen rtext parse (Some req)) = 200%Z \/
   (status (POST key G gen rtext parse (Some req)) = 400%Z \/
    status (POST key G gen rtext parse (Some req)) = 500%Z) /\
   fields (POST key G gen rtext parse (Some req)) = ["error"%string]).
Proof.
  split; [split|].
  - unfold POST. destruct (text req) as [t|]; [|discriminate].
    destruct (isBlank t) eqn:Eb; [discriminate|].
    destruct (truthy key) eqn:Ek; simpl negb; cbv iota; [|discriminate].
    destruct (gen (buildPrompt req t)) as [r1|] eqn:E1; [|discriminate].
    destruct (rtext r1) as [summary|] eqn:E2; [|discriminate].
    destruct (gen (highlightPrompt t)) as [r2|] eqn:E3; [|discriminate].
    intros _. exists t, r1, summary, r2.
    repeat split; try assumption. apply isBlank_false, Eb.
  - intros (t & r1 & summary & r2 & Ht & Hnb%isBlank_false & Hk & H1 & H2 & H3).
    rewrite (POST_success key G gen rtext parse req t summary r1 r2
               Ht Hnb Hk H1 H2 H3). reflexivity.
  - unfold POST. destruct (text req) as [t|]; [|right; split; [left|]; reflexivity].
    destruct (isBlank t); [right; split; [left|]; reflexivity|].
    destruct (truthy key); simpl negb; cbv iota;
      [|right; split; [right|]; reflexivity].
    destruct (gen (buildPrompt req t)) as [r1|];
      [|right; split; [right|]; reflexivity].
    destruct (rtext r1) as [summary|]; [|right; split; [right|]; reflexivity].
    destruct (gen (highlightPrompt t)) as [r2|];
      [|right; split; [right|]; reflexivity].
    left. reflexivity.
Qed.

(** X13.  The model is not consulted before the checks pass: for a text
    that is absent or empty after trimming, or without credential, the
    answer is the same whatever the model and the JSON parser are. *)
Theorem checks_come_before_the_model
    (key : option jsstring) (req : SummarizeRequest)
    (G1 G2 : Type) (gen1 : jsstring -> option G1) (gen2 : jsstring -> option G2)
    (rtext1 : G1 -> option jsstring) (rtext2 : G2 -> option jsstring)
    (parse1 parse2 : jsstring -> option json) :
  (text req = None \/ (exists t, text req = Some t /\ trim t = []) \/
   truthy key = false) ->
  POST key G1 gen1 rtext1 parse1 (Some req) =
  POST key G2 gen2 rtext2 parse2 (Some req).
Proof.
  intros H. unfold POST. destruct (text req) as [t|]; [|reflexivity].
  destruct (isBlank t) eqn:Eb; [reflexivity|].
  destruct H as [H | [(t' & Ht & Hb%isBlank_true) | Hk]].
  - discriminate H.
  - injection Ht as <-. congruence.
  - rewrite Hk. reflexivity.
Qed.

Lemma checks_come_before_the_model_witness :
  POST None jsstring (constant_model (words 3)) text_of parse_fails
       (Some (request (Some (words 9)) "short" None "neutral")) =
  POST None jsstring summary_only_model unreadable_highlights parse_fails
       (Some (request (Some (words 9)) "short" None "neutral")).
Proof.
  exact (checks_come_before_the_model None
           (request (Some (words 9)) "short" None "neutral")
           jsstring jsstring (constant_model (words 3)) summary_only_model
           text_of unreadable_highlights parse_fails parse_fails
           (or_intror (or_intror eq_refl))).
Defined.

(** X14.  Once the summary is generated, a highlight call that rejects
    turns the whole answer into the catch-all 500 and the summary is lost,
    while a highlight response whose text cannot be read leaves a 200 with
    the summary and the three empty arrays. *)
Theorem highlight_call_failures
    (key : option jsstring) (G : Type) (gen : jsstring -> option G)
    (rtext : G -> option jsstring) (parse : jsstring -> option json)
    (req : SummarizeRequest) (t summary : jsstring) (r1 : G) :
  text req = Some t -> trim t <> [] -> truthy key = true ->
  gen (buildPrompt req t) = Some r1 -> rtext r1 = Some summary ->
  (gen (highlightPrompt t) = None ->
     POST key G gen rtext parse (Some req) =
     json_error "Failed to generate summary. Please check your API key and try again." 500) /\
  (forall r2, gen (highlightPrompt t) = Some r2 -> rtext r2 = None ->
     status (POST key G gen rtext parse (Some req)) = 200%Z /\
     field "summary" (POST key G gen rtext parse (Some req)) =
       Some (VStr summary) /\
     field "highlights" (POST key G gen rtext parse (Some req)) =
       Some (VJson emptyHighlights)).
Proof.
  intros Ht Hnb%isBlank_false Hk H1 H2. split.
  - intros H3. unfold POST. rewrite Ht, Hnb, Hk. simpl negb. cbv iota.
    rewrite H1, H2, H3. reflexivity.
  - intros r2 H3 H4.
    rewrite (POST_success key G gen rtext parse req t summary r1 r2
               Ht Hnb Hk H1 H2 H3).
    split; [reflexivity|]. split; [reflexivity|].
    unfold field. simpl. unfold parseHighlights. rewrite H4. reflexivity.
Qed.

Lemma highlight_call_failures_witness :
  status (POST (Some (lit "key")) jsstring summary_only_model text_of parse_fails
            (Some (request (Some (words 9)) "short" None "neutral"))) = 500%Z /\
  status (POST (Some (lit "key")) jsstring empty_highlight_model
            unreadable_highlights parse_fails
            (Some (request (Some (words 9)) "short" None "neutral"))) = 200%Z.
Proof.
  assert (Hnb : trim (words 9) <> [])
    by (intros H; vm_compute in H; discriminate H).
  split.
  - rewrite (proj1 (highlight_call_failures (Some (lit "key")) jsstring
                      summary_only_model text_of parse_fails
                      (request (Some (words 9)) "short" None "neutral")
                      (words 9) (lit "A summary.") (lit "A summary.")
                      eq_refl Hnb eq_refl eq_refl eq_refl) eq_refl).
    reflexivity.
  - exact (proj1 (proj2 (highlight_call_failures (Some (lit "key")) jsstring
                      empty_highlight_model unreadable_highlights parse_fails
                      (request (Some (words 9)) "short" None "neutral")
                      (words 9) (lit "A summary.") (lit "A summary.")
                      eq_refl Hnb eq_refl eq_refl eq_refl) [] eq_refl eq_refl)).
Defined.

(** X15.  In every 200 of the route both word counts are at least 1: the
    pieces of [split] are never none, so an empty summary counts as one
    word and the ratio never divides by zero. *)
Theorem summarize_counts_positive
    (key : option jsstring) (G : Type) (gen : jsstring -> option G)
    (rtext : G -> option jsstring) (parse : jsstring -> option json)
    (req : SummarizeRequest) :
  status (POST key G gen rtext parse (Some req)) = 200%Z ->
  exists o s : nat,
    field "originalWordCount" (POST key G gen rtext parse (Some req)) =
      Some (VNum (Z.of_nat o)) /\
    field "summaryWordCount" (POST key G gen rtext parse (Some req)) =
      Some (VNum (Z.of_nat s)) /\
    1 <= o /\ 1 <= s /\
    (field "summary" (POST key G gen rtext parse (Some req)) = Some (VStr []) ->
     s = 1).
Proof.
  intros Hok.
  destruct (summarize_200_inv key G gen rtext parse req Hok)
    as (t & r1 & summary & r2 & Ht & Hnb%isBlank_false & Hk & H1 & H2 & H3).
  rewrite (POST_success key G gen rtext parse req t summary r1 r2
             Ht Hnb Hk H1 H2 H3).
  exists (countPieces t), (countPieces summary).
  split; [reflexivity|]. split; [reflexivity|].
  split; [apply countPieces_pos|]. split; [apply countPieces_pos|].
  unfold field. simpl. intros H. injection H as ->. reflexivity.
Qed.

Lemma summarize_counts_positive_witness :
  exists o s : nat,
    field "summaryWordCount"
      (POST (Some (lit "key")) jsstring (constant_model []) text_of parse_fails
            (Some (request (Some (words 9)) "short" None "neutral"))) =
      Some (VNum (Z.of_nat s)) /\ 1 <= o /\ s = 1.
Proof.
  destruct (summarize_counts_positive (Some (lit "key")) jsstring
              (constant_model []) text_of parse_fails
              (request (Some (words 9)) "short" None "neutral") eq_refl)
    as (o & s & _ & Hs & Ho & _ & Hempty).
  exists o, s. split; [exact Hs|]. split; [exact Ho|]. apply Hempty. reflexivity.
Defined.

End SummarizeRouteFacts.

(** ** The handlers of DocumentSummarizer *)

Section HandlerFacts.

Import SummarizerHandlers Samples MoreSamples.

Lemma handleFileSelect_client_cases (f : File.t) :
  (File.type f = TXT /\ isBlank (File.text f) = false /\
   DocumentSummarizer.handleFileSelect_client f =
   DocumentSummarizer.Extracted
     {| FileExtractor.text := capText (File.text f);
        FileExtractor.wordCount := countWords (File.text f);
        FileExtractor.fileType := File.type f;
        FileExtractor.fileName := File.name f;
        FileExtractor.fileSize := File.size f |}) \/
  ((File.type f <> TXT \/ isBlank (File.text f) = true) /\
   DocumentSummarizer.handleFileSelect_client f = DocumentSummarizer.ServerSide).
Proof.
  unfold DocumentSummarizer.handleFileSelect_client.
  destruct (streq (File.type f) TXT) eqn:Et.
  - apply streq_eq in Et. destruct (isBlank (File.text f)) eqn:Eb.
    + right. split; [right|]; reflexivity.
    + left. split; [exact Et|]. split; reflexivity.
  - apply streq_neq in Et. right. split; [left; exact Et | reflexivity].
Qed.

(** X16.  Whatever the server does, [handleFileSelect] ends with the
    spinner off, the new file as current file, no summary, and the options
    as they were; and whenever it ends with an error message the text
    extracted from the previous file is still held. *)
Theorem handleFileSelect_resets (api : UploadRoute.FormData -> FetchResult)
    (st : State) (file : File.t) :
  let st' := handleFileSelect api st file in
  isProcessing st' = false /\ currentFile st' = Some file /\
  summaryResult st' = None /\ summaryType st' = summaryType st /\
  customLength st' = customLength st /\ tone st' = tone st /\
  (error st' <> [] -> extractedText st' = extractedText st).
Proof.
  cbv zeta. unfold handleFileSelect.
  destruct (DocumentSummarizer.handleFileSelect_client file) as [r|].
  - simpl. repeat split. intros H. contradiction H. reflexivity.
  - cbv zeta.
    destruct (api _) as [resp | m]; [destruct (ok resp)|]; simpl; repeat split.
    intros H. contradiction H. reflexivity.
Qed.

(** X16 on a blank file dropped after [notes.txt] was read: the error is
    shown and the old text stays. *)
Lemma handleFileSelect_resets_witness :
  extractedText (handleFileSelect (upload_endpoint no_mammoth)
                                  after_first_file blank_txt)
  = lit "hello world" /\
  currentFile (handleFileSelect (upload_endpoint no_mammoth)
                                after_first_file blank_txt)
  = Some blank_txt.
Proof.
  pose proof (handleFileSelect_resets (upload_endpoint no_mammoth)
                after_first_file blank_txt) as (_ & Hfile & _ & _ & _ & _ & Hkeep).
  split; [|exact Hfile].
  apply Hkeep. intros H. vm_compute in H. discriminate H.
Defined.

(** X17.  A plain-text file that is not empty after trimming never
    reaches the server: the new state is the same whatever the endpoint
    would answer, holds the capped text of the file and shows no error. *)
Theorem plain_text_stays_in_browser
    (api1 api2 : UploadRoute.FormData -> FetchResult)
    (st : State) (f : File.t) :
  File.type f = TXT -> trim (File.text f) <> [] ->
  handleFileSelect api1 st f = handleFileSelect api2 st f /\
  extractedText (handleFileSelect api1 st f) = capText (File.text f) /\
  error (handleFileSelect api1 st f) = [].
Proof.
  intros Hty Hnb%isBlank_false. unfold handleFileSelect.
  rewrite (handleFileSelect_client_txt f Hty Hnb).
  repeat split.
Qed.

Lemma plain_text_stays_in_browser_witness :
  extractedText (handleFileSelect (fun _ => Rejected (lit "offline"))
                                  initial hello_txt) = lit "hello world".
Proof.
  assert (Hnb : trim (File.text hello_txt) <> [])
    by (intros H; vm_compute in H; discriminate H).
  exact (proj1 (proj2 (plain_text_stays_in_browser
                         (fun _ => Rejected (lit "offline"))
                         (upload_endpoint no_mammoth)
                         initial hello_txt eq_refl Hnb))).
Defined.

Lemma ok_is_200 (mammoth : File.t -> option jsstring)
    (data : UploadRoute.FormData) :
  ok (UploadRoute.POST mammoth (Some data)) = true ->
  status (UploadRoute.POST mammoth (Some data)) = 200%Z.
Proof.
  unfold ok.
  destruct (upload_status_cases mammoth (Some data)) as [H | [[H | H] _]];
    rewrite H; [reflexivity | discriminate | discriminate].
Qed.

(** X18.  With the upload route of this application behind the endpoint,
    and a network that may fail, [handleFileSelect] keeps the held text
    well formed: empty, or not empty after trimming and of at most 100,003
    characters, for every file and every answer of the converter. *)
Theorem held_text_stays_ok (mammoth : File.t -> option jsstring)
    (api : UploadRoute.FormData -> FetchResult) (st : State) (file : File.t) :
  (forall d, api d = upload_endpoint mammoth d \/ exists m, api d = Rejected m) ->
  held_text_ok (extractedText st) ->
  held_text_ok (extractedText (handleFileSelect api st file)).
Proof.
  intros Hapi Hst. unfold handleFileSelect.
  destruct (handleFileSelect_client_cases file) as [(Hty & Hnb & ->) | (_ & ->)].
  - simpl. right. split.
    + apply isBlank_false, capText_not_blank, Hnb.
    + apply capText_length.
  - cbv zeta.
    destruct (Hapi {| UploadRoute.file := Some file;
                      UploadRoute.extractedText := None |}) as [-> | [m ->]];
      [|exact Hst].
    unfold upload_endpoint.
    destruct (ok _) eqn:Eok; [|exact Hst].
    apply ok_is_200 in Eok.
    destruct (upload_extraction_200 mammoth
                {| UploadRoute.file := Some file;
                   UploadRoute.extractedText := None |} eq_refl Eok)
      as (t & wc & size & Ht & _ & _ & Hnb & Hlen & _).
    unfold finish, text_of_body. cbn [extractedText]. rewrite Ht.
    right. split; assumption.
Qed.

Lemma held_text_stays_ok_witness :
  held_text_ok (extractedText (handleFileSelect (upload_endpoint mammoth_reads)
                                                initial report_docx)).
Proof.
  apply (held_text_stays_ok mammoth_reads).
  - intros d. left. reflexivity.
  - left. reflexivity.
Defined.

(** X19.  A plain-text file that is empty after trimming is retried on
    the server, whose answer becomes the error shown: no text could be
    extracted when the file is within the size limit, file too large
    otherwise; the held text is left as it was. *)
Theorem blank_text_file_error (mammoth : File.t -> option jsstring)
    (st : State) (f : File.t) :
  File.type f = TXT -> trim (File.text f) = [] ->
  trim (File.buffer_utf8 f) = [] ->
  let st' := handleFileSelect (upload_endpoint mammoth) st f in
  extractedText st' = extractedText st /\
  error st' =
    if (10 * 1024 * 1024 <? File.size f)%N then lit "File too large"
    else lit "No text could be extracted from the file".
Proof.
  intros Hty Hb%isBlank_true Hb2. cbv zeta. unfold handleFileSelect.
  destruct (handleFileSelect_client_cases f) as [(_ & Hnb & _) | (_ & ->)];
    [congruence|].
  cbv zeta. unfold upload_endpoint.
  destruct (N.ltb_spec (10 * 1024 * 1024) (File.size f)) as [Hsz | Hsz].
  - rewrite (POST_too_large mammoth f (or_intror Hty) Hsz). split; reflexivity.
  - rewrite (POST_extraction_path mammoth
               {| UploadRoute.file := Some f; UploadRoute.extractedText := None |}
               f (File.buffer_utf8 f) eq_refl eq_refl Hsz
               (or_intror (conj Hty eq_refl))).
    apply isBlank_true in Hb2. rewrite Hb2. split; reflexivity.
Qed.

Lemma blank_text_file_error_witness :
  error (handleFileSelect (upload_endpoint no_mammoth) after_first_file blank_txt)
  = lit "No text could be extracted from the file".
Proof.
  exact (proj2 (blank_text_file_error no_mammoth after_first_file blank_txt
                  eq_refl eq_refl eq_refl)).
Defined.

Lemma substring0_length (n : nat) (s : jsstring) :
  (jslength (substring0 n s) <= N.of_nat n)%N.
Proof. unfold jslength, substring0. rewrite length_firstn. lia. Qed.

(** X20.  With the summarize route of this application behind the
    endpoint, a held text that is well formed and not empty is never
    turned down by the text check of the route: whatever the credential
    and the model do, [handleSummarize] does not end with the error [No
    text provided for summarization]. *)
Theorem held_text_passes_text_check
    (key : option jsstring) (G : Type) (gen : jsstring -> option G)
    (rtext : G -> option jsstring) (parse : jsstring -> option json)
    (user : option jsstring) (st : State) :
  held_text_ok (extractedText st) -> extractedText st <> [] ->
  error (fst (handleSummarize (summarize_endpoint key G gen rtext parse) user st))
  <> lit "No text provided for summarization".
Proof.
  intros [Hempty | [Hnb%isBlank_false _]] Hne; [contradiction|].
  unfold handleSummarize.
  destruct (extractedText st) as [|c t] eqn:Et; [contradiction Hne; reflexivity|].
  rewrite <- Et in Hnb |- *. clear Hne.
  unfold summarize_endpoint. cbv beta iota zeta.
  set (req := {| SummarizeRoute.text := Some (extractedText st);
                 SummarizeRoute.summaryType := Some (summaryType st);
                 SummarizeRoute.customLength := customLength_sent st;
                 SummarizeRoute.tone := Some (tone st) |}).
  destruct (truthy key) eqn:Ek.
  - destruct (POST_past_checks key G gen rtext parse req (extractedText st)
                eq_refl Hnb Ek) as [E | E].
    + rewrite E. simpl. intros H. vm_compute in H. discriminate H.
    + assert (Hok : ok (SummarizeRoute.POST key G gen rtext parse (Some req)) = true)
        by (unfold ok; rewrite E; reflexivity).
      rewrite Hok. simpl. discriminate.
  - rewrite (POST_no_key key G gen rtext parse req (extractedText st)
               eq_refl Hnb Ek).
    simpl. intros H. vm_compute in H. discriminate H.
Qed.

Lemma held_text_passes_text_check_witness :
  error (fst (handleSummarize
                (summarize_endpoint None jsstring (constant_model (words 3))
                                    text_of parse_fails)
                None after_first_file))
  <> lit "No text provided for summarization".
Proof.
  apply held_text_passes_text_check.
  - right. split; [intros H; vm_compute in H; discriminate H|].
    intros H; vm_compute in H; discriminate H.
  - discriminate.
Defined.

(** X21.  When [handleSummarize] hands a document to the store, a user is
    signed in, a file is current and the endpoint answered with success;
    the document carries the uid, the name, size and type of the current
    file, the options in use, the first 1000 characters of the held text
    and no more, and a custom length only for the type [custom]; the
    state then shows the body of the response and no error. *)
Theorem saved_summary_record
    (api : SummarizeRoute.SummarizeRequest -> FetchResult)
    (user : option jsstring) (st : State) (record : SavedSummary.t) :
  snd (handleSummarize api user st) = Some record ->
  exists uid file response,
    user = Some uid /\ currentFile st = Some file /\
    api {| SummarizeRoute.text := Some (extractedText st);
           SummarizeRoute.summaryType := Some (summaryType st);
           SummarizeRoute.customLength := customLength_sent st;
           SummarizeRoute.tone := Some (tone st) |} = Responded response /\
    ok response = true /\
    SavedSummary.userId record = uid /\
    SavedSummary.fileName record = File.name file /\
    SavedSummary.fileSize record = File.size file /\
    SavedSummary.fileType record = File.type file /\
    SavedSummary.summaryType record = summaryType st /\
    SavedSummary.tone record = tone st /\
    SavedSummary.originalText record = firstn 1000 (extractedText st) /\
    (jslength (SavedSummary.originalText record) <= 1000)%N /\
    (summaryType st <> lit "custom" -> SavedSummary.customLength record = None) /\
    SavedSummary.summary record = field "summary" response /\
    summaryResult (fst (handleSummarize api user st)) = Some (body response) /\
    error (fst (handleSummarize api user st)) = [].
Proof.
  unfold handleSummarize.
  destruct (extractedText st) as [|c t] eqn:Et; [discriminate|].
  rewrite <- Et. clear c t Et. cbv zeta.
  destruct (api _) as [response | m] eqn:Eapi; [|discriminate].
  destruct (ok response) eqn:Eok; [|discriminate].
  destruct user as [uid|]; [|discriminate].
  destruct (currentFile st) as [file|]; [|discriminate].
  cbn [snd fst]. intros H. injection H as <-.
  exists uid, file, response.
  repeat match goal with |- _ /\ _ => split end;
    try reflexivity; try assumption.
  - exact (substring0_length 1000 (extractedText st)).
  - intros Hne%streq_neq. cbn [SavedSummary.customLength].
    rewrite Hne. reflexivity.
Qed.

Lemma saved_summary_record_witness :
  exists record,
    snd (handleSummarize
           (summarize_endpoint (Some (lit "key")) jsstring
              (constant_model (lit "A summary.")) text_of parse_fails)
           (Some (lit "u1")) after_first_file) = Some record /\
    SavedSummary.originalText record = lit "hello world" /\
    SavedSummary.customLength record = None.
Proof.
  eexists. split; [reflexivity|].
  destruct (saved_summary_record
              (summarize_endpoint (Some (lit "key")) jsstring
                 (constant_model (lit "A summary.")) text_of parse_fails)
              (Some (lit "u1")) after_first_file _ eq_refl)
    as (uid & file & response & _ & _ & _ & _ & _ & _ & _ & _ & _ & _ &
        Htext & _ & Hcustom & _).
  split; [exact Htext|].
  apply Hcustom. intros H. vm_compute in H. discriminate H.
Defined.

(** X22.  No document is handed to the store without a user, without a
    current file, or after an answer that is not a success; and without
    held text no request is made at all: the state is unchanged whatever
    the endpoint would answer. *)
Theorem nothing_saved_without_success
    (api : SummarizeRoute.SummarizeRequest -> FetchResult)
    (user : option jsstring) (st : State) :
  (user = None -> snd (handleSummarize api user st) = None) /\
  (currentFile st = None -> snd (handleSummarize api user st) = None) /\
  (forall response,
     api {| SummarizeRoute.text := Some (extractedText st);
            SummarizeRoute.summaryType := Some (summaryType st);
            SummarizeRoute.customLength := customLength_sent st;
            SummarizeRoute.tone := Some (tone st) |} = Responded response ->
     ok response = false ->
     snd (handleSummarize api user st) = None /\
     summaryResult (fst (handleSummarize api user st)) = summaryResult st) /\
  (extractedText st = [] -> handleSummarize api user st = (st, None)).
Proof.
  unfold handleSummarize. split; [|split; [|split]].
  - intros ->. destruct (extractedText st); [reflexivity|]. cbv zeta.
    destruct (api _) as [r|]; [destruct (ok r)|]; reflexivity.
  - intros ->. destruct (extractedText st); [reflexivity|]. cbv zeta.
    destruct (api _) as [r|]; [destruct (ok r)|]; try reflexivity.
    simpl. destruct user; reflexivity.
  - intros response Hapi Hok.
    destruct (extractedText st); [split; reflexivity|]. cbv zeta.
    rewrite Hapi, Hok. split; reflexivity.
  - intros ->. reflexivity.
Qed.

Lemma nothing_saved_without_success_witness :
  snd (handleSummarize
         (summarize_endpoint (Some (lit "key")) jsstring
            (constant_model (lit "A summary.")) text_of parse_fails)
         None after_first_file) = None /\
  snd (handleSummarize
         (summarize_endpoint None jsstring
            (constant_model (lit "A summary.")) text_of parse_fails)
         (Some (lit "u1")) after_first_file) = None.
Proof.
  split.
  - exact (proj1 (nothing_saved_without_success
                    (summarize_endpoint (Some (lit "key")) jsstring
                       (constant_model (lit "A summary.")) text_of parse_fails)
                    None after_first_file) eq_refl).
  - exact (proj1 (proj1 (proj2 (proj2 (nothing_saved_without_success
                    (summarize_endpoint None jsstring
                       (constant_model (lit "A summary.")) text_of parse_fails)
                    (Some (lit "u1")) after_first_file))) _ eq_refl eq_refl)).
Defined.

(** X23.  The custom length held in the state takes part in
    [handleSummarize] for the type [custom] only: for any other type,
    changing it before the call changes neither the request, nor the
    document handed to the store, nor anything else of the new state. *)
Theorem custom_length_state_unused
    (api : SummarizeRoute.SummarizeRequest -> FetchResult)
    (user : option jsstring) (st : State) (n : jsnumber) :
  summaryType st <> lit "custom" ->
  handleSummarize api user (setCustomLength st n) =
  (setCustomLength (fst (handleSummarize api user st)) n,
   snd (handleSummarize api user st)).
Proof.
  intros Hne%streq_neq. unfold handleSummarize, setCustomLength, customLength_sent.
  simpl. rewrite Hne.
  destruct (extractedText st) as [|c t] eqn:Et;
    [cbn [fst snd]; rewrite Et; reflexivity|].
  cbv zeta.
  destruct (api _) as [r|]; [destruct (ok r)|]; cbn [fst snd];
    try rewrite Et; try reflexivity.
Qed.

Lemma custom_length_state_unused_witness :
  snd (handleSummarize
         (summarize_endpoint (Some (lit "key")) jsstring
            (constant_model (lit "A summary.")) text_of parse_fails)
         (Some (lit "u1")) (setCustomLength after_first_file NaN)) =
  snd (handleSummarize
         (summarize_endpoint (Some (lit "key")) jsstring
            (constant_model (lit "A summary.")) text_of parse_fails)
         (Some (lit "u1")) after_first_file).
Proof.
  assert (Hne : summaryType after_first_file <> lit "custom")
    by (intros H; vm_compute in H; discriminate H).
  exact (f_equal snd (custom_length_state_unused
           (summarize_endpoint (Some (lit "key")) jsstring
              (constant_model (lit "A summary.")) text_of parse_fails)
           (Some (lit "u1")) after_first_file NaN Hne)).
Defined.

End HandlerFacts.

(** ** LoginForm.handleEmailAuth *)

Section LoginFacts.

Import LoginForm MoreSamples.

(** X24.  [handleEmailAuth] calls the authentication service exactly when
    the password has at least 6 characters and, in sign-up mode, equals
    its confirmation; the call is a sign-up with the e-mail, password and
    name of the form in sign-up mode and a sign-in with the e-mail and
    password otherwise.  When no call is made the loading flag is left as
    it was and the message is that the passwords do not match, which comes
    first, or that the password is too short. *)
Theorem auth_call_guard (auth : AuthCall -> AuthOutcome) (st : State) :
  let form := formData st in
  let valid :=
    (6 <= jslength (password form))%N /\
    (isSignUp st = true -> password form = confirmPassword form) in
  (valid ->
     snd (handleEmailAuth auth st) =
     Some (if isSignUp st
           then signUpWithEmail (email form) (password form) (displayName form)
           else signInWithEmail (email form) (password form))) /\
  (~ valid ->
     snd (handleEmailAuth auth st) = None /\
     loading (fst (handleEmailAuth auth st)) = loading st /\
     error (fst (handleEmailAuth auth st)) =
       if isSignUp st && negb (streq (password form) (confirmPassword form))
       then lit "Passwords do not match"
       else lit "Password must be at least 6 characters").
Proof.
  cbv zeta. unfold handleEmailAuth. split.
  - intros [Hlen Hconf]. apply N.ltb_ge in Hlen. rewrite Hlen.
    destruct (isSignUp st).
    + rewrite (Hconf eq_refl), streq_refl. simpl.
      destruct (auth _); reflexivity.
    + simpl. destruct (auth _); reflexivity.
  - intros Hinvalid.
    destruct (isSignUp st && negb (streq (password (formData st))
                                         (confirmPassword (formData st)))) eqn:E.
    + repeat split.
    + destruct (N.ltb_spec (jslength (password (formData st))) 6) as [Hlt | Hge].
      * repeat split.
      * exfalso. apply Hinvalid. split; [exact Hge|]. intros Hs.
        rewrite Hs in E. simpl in E. apply negb_false_iff in E.
        apply streq_eq. exact E.
Qed.

(** X24 on a sign-up form with two different short passwords. *)
Lemma auth_call_guard_witness :
  snd (handleEmailAuth auth_accepts signup_mismatch) = None /\
  error (fst (handleEmailAuth auth_accepts signup_mismatch)) =
    lit "Passwords do not match" /\
  snd (handleEmailAuth auth_accepts signin_form) =
    Some (signInWithEmail (lit "a@b.c") (lit "s3cretpw")).
Proof.
  pose proof (proj2 (auth_call_guard auth_accepts signup_mismatch)) as Hno.
  pose proof (proj1 (auth_call_guard auth_accepts signin_form)) as Hyes.
  cbv zeta in Hno, Hyes.
  assert (Hinvalid : ~ ((6 <= jslength (password (formData signup_mismatch)))%N /\
                        (isSignUp signup_mismatch = true ->
                         password (formData signup_mismatch) =
                         confirmPassword (formData signup_mismatch)))).
  { intros [H _]. vm_compute in H. apply H. reflexivity. }
  destruct (Hno Hinvalid) as (Hcall & _ & Herr).
  split; [exact Hcall|]. split; [exact Herr|].
  apply Hyes. split.
  - intros H. vm_compute in H. discriminate H.
  - intros H. discriminate H.
Defined.

(** X25.  After a call to the authentication service the loading flag is
    off; no error is shown exactly when the call resolved; a rejection
    shows the message of its code for the five known codes and
    [Authentication failed] for any other code or none. *)
Theorem auth_error_shown (auth : AuthCall -> AuthOutcome) (st : State)
    (call : AuthCall) :
  snd (handleEmailAuth auth st) = Some call ->
  loading (fst (handleEmailAuth auth st)) = false /\
  (error (fst (handleEmailAuth auth st)) = [] <-> auth call = Resolved) /\
  (forall code, auth call = RejectedWith code ->
     error (fst (handleEmailAuth auth st)) = errorMessage code /\
     (errorMessage code = lit "Authentication failed" \/
      code = Some (lit "auth/user-not-found") \/
      code = Some (lit "auth/wrong-password") \/
      code = Some (lit "auth/email-already-in-use") \/
      code = Some (lit "auth/invalid-email") \/
      code = Some (lit "auth/weak-password"))).
Proof.
  assert (Hmsg : forall code, errorMessage code <> []).
  { intros code. unfold errorMessage. destruct code as [c|]; [|discriminate].
    repeat (destruct (streq c _); [discriminate|]). discriminate. }
  unfold handleEmailAuth.
  destruct (isSignUp st && _); [discriminate|].
  destruct (N.ltb _ _); [discriminate|]. cbv zeta.
  destruct (auth _) as [|code] eqn:Ea; cbn [fst snd];
    intros H; injection H as <-; rewrite Ea.
  - split; [reflexivity|]. split; [split; reflexivity|]. discriminate.
  - split; [reflexivity|]. split.
    + split; [intros H; apply Hmsg in H; contradiction | discriminate].
    + intros code' H. injection H as <-. split; [reflexivity|].
      unfold errorMessage. destruct code as [c|]; [|left; reflexivity].
      destruct (streq c (lit "auth/user-not-found")) eqn:E1;
        [apply streq_eq in E1; subst; right; left; reflexivity|].
      destruct (streq c (lit "auth/wrong-password")) eqn:E2;
        [apply streq_eq in E2; subst; right; right; left; reflexivity|].
      destruct (streq c (lit "auth/email-already-in-use")) eqn:E3;
        [apply streq_eq in E3; subst; do 3 right; left; reflexivity|].
      destruct (streq c (lit "auth/invalid-email")) eqn:E4;
        [apply streq_eq in E4; subst; do 4 right; left; reflexivity|].
      destruct (streq c (lit "auth/weak-password")) eqn:E5;
        [apply streq_eq in E5; subst; do 5 right; reflexivity|].
      left. reflexivity.
Qed.

Lemma auth_error_shown_witness :
  error (fst (handleEmailAuth auth_unknown_user signin_form)) =
    lit "No account found with this email" /\
  loading (fst (handleEmailAuth auth_unknown_user signin_form)) = false.
Proof.
  destruct (auth_error_shown auth_unknown_user signin_form
              (signInWithEmail (lit "a@b.c") (lit "s3cretpw")) eq_refl)
    as (Hload & _ & Hrej).
  split; [|exact Hload].
  exact (proj1 (Hrej (Some (lit "auth/user-not-found")) eq_refl)).
Defined.

End LoginFacts.

(** ** src/lib/pdfExtractor.ts *)

Section PdfFacts.

Import PdfExtractor.

Lemma collapse_go_no_LF (s : jsstring) (inws : bool) :
  ~ In LF (collapse_go inws s).
Proof.
  revert inws. induction s as [|c s IH]; intros inws; simpl; [tauto|].
  destruct (isWhiteSpace c) eqn:E.
  - destruct inws; [apply IH|]. intros [H | H]; [discriminate H | exact (IH _ H)].
  - intros [H | H]; [|exact (IH _ H)]. subst c. discriminate E.
Qed.

Lemma removeBlankLines_go_id (s : jsstring) :
  ~ In LF s -> removeBlankLines_go 0 s = s.
Proof.
  induction s as [|c s IH]; intros H; simpl; [reflexivity|].
  destruct (N.eqb_spec c LF) as [-> | Hne].
  - exfalso. apply H. left. reflexivity.
  - f_equal. apply IH. intros Hin. apply H. right. exact Hin.
Qed.

Lemma nonEmpty_cons (c : N) (w : jsstring) : nonEmpty (c :: w) = true.
Proof. reflexivity. Qed.

Lemma nonEmpty_snoc (w : jsstring) (c : N) : nonEmpty (w ++ [c]) = true.
Proof. destruct w; reflexivity. Qed.

Lemma words_after_space (s : jsstring) :
  (forallb isWhiteSpace s = true ->
   List.filter nonEmpty (split_go [] true s) = []) /\
  (forallb isWhiteSpace s = false ->
   List.filter nonEmpty (split_go [] true s) <> []).
Proof.
  pose proof (split_go_count s [] true (fun _ => eq_refl)) as Hlen.
  cbv iota in Hlen. split; intros H.
  - apply count_runs_zero in H. rewrite H in Hlen.
    destruct (List.filter nonEmpty (split_go [] true s)); [reflexivity | discriminate].
  - intros E. rewrite E in Hlen. symmetry in Hlen.
    apply count_runs_zero in Hlen. congruence.
Qed.

Lemma ends_ws_all (s : jsstring) (prev : bool) :
  forallb isWhiteSpace s = true -> ends_ws prev s = prev || negb (Nat.eqb (length s) 0).
Proof.
  revert prev. induction s as [|c s IH]; intros prev H; simpl.
  - rewrite orb_false_r. reflexivity.
  - simpl in H. apply andb_prop in H as [Hc Hs]. rewrite (IH _ Hs), Hc.
    simpl. apply eq_sym, orb_true_r.
Qed.

(** The collapsed text, read from inside a word [tok] or from inside a
    run of white space, is the words joined by single spaces, with one
    more space when the text ends with white space after a word. *)
Lemma collapse_go_words (s : jsstring) :
  (forall tok, tok <> [] ->
     tok ++ collapse_go false s =
     join_space (List.filter nonEmpty (split_go tok false s)) ++
     (if ends_ws false s then [32%N] else [])) /\
  collapse_go true s =
  join_space (List.filter nonEmpty (split_go [] true s)) ++
  (if negb (forallb isWhiteSpace s) && ends_ws true s then [32%N] else []).
Proof.
  induction s as [|c s [IH1 IH2]].
  - split; [|reflexivity]. intros tok Htok. simpl.
    destruct tok; [contradiction Htok; reflexivity|]. reflexivity.
  - assert (Hword : forall tok, tok <> [] ->
              tok ++ c :: collapse_go false s =
              join_space (List.filter nonEmpty (split_go (tok ++ [c]) false s)) ++
              (if ends_ws false s then [32%N] else [])).
    { intros tok Htok. rewrite <- (IH1 (tok ++ [c])).
      - rewrite <- app_assoc. reflexivity.
      - destruct tok; discriminate. }
    split.
    + intros tok Htok. simpl. destruct (isWhiteSpace c) eqn:Hc.
      * cbn [List.filter]. destruct tok as [|t0 tok]; [contradiction Htok; reflexivity|].
        rewrite nonEmpty_cons, IH2.
        destruct (forallb isWhiteSpace s) eqn:Hall.
        -- rewrite (proj1 (words_after_space s) Hall).
           rewrite (ends_ws_all s true Hall). simpl. reflexivity.
        -- pose proof (proj2 (words_after_space s) Hall) as Hwords.
           destruct (List.filter nonEmpty (split_go [] true s)) as [|w ws];
             [contradiction Hwords; reflexivity|].
           simpl negb. cbv iota. cbn [andb].
           change (join_space ((t0 :: tok) :: w :: ws))
             with ((t0 :: tok) ++ 32%N :: join_space (w :: ws)).
           rewrite <- app_assoc. reflexivity.
      * apply Hword. exact Htok.
    + simpl. destruct (isWhiteSpace c) eqn:Hc.
      * rewrite IH2. simpl. reflexivity.
      * simpl. change (c :: collapse_go false s) with ([c] ++ collapse_go false s).
        rewrite (IH1 [c]) by discriminate. reflexivity.
Qed.

Lemma collapseWhitespace_words (s : jsstring) :
  collapseWhitespace s =
  (match s with
   | c :: _ => if isWhiteSpace c then [32%N] else []
   | [] => []
   end) ++
  join_space (List.filter nonEmpty (split_ws s)) ++
  (if negb (forallb isWhiteSpace s) && ends_ws true s then [32%N] else []).
Proof.
  unfold collapseWhitespace, split_ws. destruct s as [|c s]; [reflexivity|].
  simpl. destruct (isWhiteSpace c) eqn:Hc.
  - cbn [List.filter]. change (nonEmpty []) with false. cbv iota.
    rewrite (proj2 (collapse_go_words s)). reflexivity.
  - simpl. change (c :: collapse_go false s) with ([c] ++ collapse_go false s).
    rewrite (proj1 (collapse_go_words s) [c]) by discriminate. reflexivity.
Qed.

Lemma split_go_ws_free (s tok : jsstring) (inws : bool) (w : jsstring) :
  forallb (fun c => negb (isWhiteSpace c)) tok = true ->
  In w (split_go tok inws s) ->
  forallb (fun c => negb (isWhiteSpace c)) w = true.
Proof.
  revert tok inws. induction s as [|c s IH]; intros tok inws Htok; simpl.
  - intros [<- | []]. exact Htok.
  - destruct (isWhiteSpace c) eqn:Hc.
    + destruct inws; [apply IH; reflexivity|].
      intros [<- | Hin]; [exact Htok | exact (IH [] true eq_refl Hin)].
    + apply IH. rewrite forallb_app, Htok. simpl. rewrite Hc. reflexivity.
Qed.

Lemma trimEnd_app_ws (y z : jsstring) :
  forallb isWhiteSpace z = true -> trimEnd (y ++ z) = trimEnd y.
Proof.
  intros Hz. induction y as [|a y IH]; simpl.
  - apply trimEnd_nil. exact Hz.
  - rewrite IH. reflexivity.
Qed.

Lemma trimEnd_snoc (y : jsstring) (c : N) :
  isWhiteSpace c = false -> trimEnd (y ++ [c]) = y ++ [c].
Proof.
  intros Hc. induction y as [|a y IH]; simpl.
  - rewrite Hc. reflexivity.
  - rewrite IH. destruct y; reflexivity.
Qed.

(** Words joined by spaces start and end with a character of a word. *)
Lemma join_space_ends (W : list jsstring) :
  W <> [] ->
  (forall w, In w W ->
     w <> [] /\ forallb (fun c => negb (isWhiteSpace c)) w = true) ->
  (exists c rest, join_space W = c :: rest /\ isWhiteSpace c = false) /\
  (exists init c, join_space W = init ++ [c] /\ isWhiteSpace c = false).
Proof.
  induction W as [|w W IH]; intros Hne Hgood; [contradiction Hne; reflexivity|].
  destruct (Hgood w (or_introl eq_refl)) as [Hw Hfree].
  assert (Hfirst : exists c rest, w = c :: rest /\ isWhiteSpace c = false).
  { destruct w as [|c rest]; [contradiction Hw; reflexivity|].
    simpl in Hfree. apply andb_prop in Hfree as [Hc _].
    exists c, rest. split; [reflexivity | apply negb_true_iff, Hc]. }
  assert (Hlast : exists init c, w = init ++ [c] /\ isWhiteSpace c = false).
  { destruct (exists_last Hw) as (init & c & ->).
    rewrite forallb_app in Hfree. apply andb_prop in Hfree as [_ Hc].
    simpl in Hc. rewrite andb_true_r in Hc.
    exists init, c. split; [reflexivity | apply negb_true_iff, Hc]. }
  destruct W as [|w' W'].
  - simpl. split; assumption.
  - change (join_space (w :: w' :: W'))
      with (w ++ 32%N :: join_space (w' :: W')).
    split.
    + destruct Hfirst as (c & rest & -> & Hc).
      exists c, (rest ++ 32%N :: join_space (w' :: W')). split; [reflexivity | exact Hc].
    + destruct IH as [_ (init & c & E & Hc)]; [discriminate | |].
      { intros x Hx. apply Hgood. right. exact Hx. }
      exists (w ++ 32%N :: init), c. rewrite E. split; [|exact Hc].
      rewrite <- app_assoc. reflexivity.
Qed.

Lemma trim_around_words (lead trail : jsstring) (W : list jsstring) :
  forallb isWhiteSpace lead = true -> forallb isWhiteSpace trail = true ->
  (forall w, In w W ->
     w <> [] /\ forallb (fun c => negb (isWhiteSpace c)) w = true) ->
  trim (lead ++ join_space W ++ trail) = join_space W.
Proof.
  intros Hlead Htrail Hgood. unfold trim.
  assert (Hstart : forall x, trimStart (lead ++ x) = trimStart x).
  { intros x. induction lead as [|a lead IH]; [reflexivity|].
    simpl in Hlead. apply andb_prop in Hlead as [Ha Hl]. simpl. rewrite Ha.
    apply IH. exact Hl. }
  rewrite Hstart. destruct W as [|w W].
  - simpl. apply trimStart_nil in Htrail. rewrite Htrail. reflexivity.
  - destruct (join_space_ends (w :: W)) as [(c & rest & E & Hc) (init & d & E' & Hd)];
      [discriminate | exact Hgood |].
    rewrite E. simpl. rewrite Hc. rewrite <- E.
    change (c :: rest ++ trail) with ((c :: rest) ++ trail). rewrite <- E.
    rewrite trimEnd_app_ws by exact Htrail.
    rewrite E'. apply trimEnd_snoc. exact Hd.
Qed.

Lemma removeBlankLines_collapse (full : jsstring) :
  removeBlankLines (collapseWhitespace full) = collapseWhitespace full.
Proof. apply removeBlankLines_go_id, collapse_go_no_LF. Qed.

Lemma cleanText_words (full : jsstring) :
  cleanText full = join_space (List.filter nonEmpty (split_ws full)).
Proof.
  unfold cleanText. rewrite removeBlankLines_collapse, collapseWhitespace_words.
  apply trim_around_words.
  - destruct full as [|c r]; [reflexivity|]. destruct (isWhiteSpace c); reflexivity.
  - destruct (negb _ && _); reflexivity.
  - intros w Hw. apply filter_In in Hw as [Hin Hne]. split.
    + intros ->. discriminate Hne.
    + apply (split_go_ws_free full [] false w eq_refl Hin).
Qed.

Lemma In_trim (x : N) (y : jsstring) : In x (trim y) -> In x y.
Proof.
  unfold trim.
  assert (Hs : forall z, In x (trimStart z) -> In x z).
  { induction z as [|a z IH]; simpl; [tauto|].
    destruct (isWhiteSpace a); [intros H; right; apply IH, H | tauto]. }
  assert (He : forall z, In x (trimEnd z) -> In x z).
  { induction z as [|a z IH]; simpl; [tauto|].
    destruct (trimEnd z) as [|b r].
    - destruct (isWhiteSpace a); simpl; tauto.
    - intros [H | H]; [left; exact H | right; apply IH, H]. }
  intros H. apply Hs, He, H.
Qed.

(** X26.  The cleaned text of a PDF is the words of the page texts joined
    by single spaces: white space at the ends is gone and every run of
    white space inside, line breaks of items and pages included, is one
    space.  The second replacement, meant to drop empty lines, finds no
    line feed left and changes nothing. *)
Theorem cleanText_is_words (full : jsstring) :
  cleanText full = join_space (List.filter nonEmpty (split_ws full)) /\
  removeBlankLines (collapseWhitespace full) = collapseWhitespace full /\
  ~ In LF (cleanText full).
Proof.
  split; [apply cleanText_words|]. split; [apply removeBlankLines_collapse|].
  unfold cleanText. rewrite removeBlankLines_collapse. intros Hin.
  apply In_trim in Hin. exact (collapse_go_no_LF full false Hin).
Qed.

Lemma count_runs_collapse (s : jsstring) :
  count_runs true (collapse_go true s) = count_runs true s /\
  (forall b, count_runs b (collapse_go false s) = count_runs b s).
Proof.
  induction s as [|c s [IH1 IH2]]; [split; reflexivity|].
  split; [|intros b]; simpl; destruct (isWhiteSpace c) eqn:Hc; simpl;
    try rewrite Hc; try (rewrite IH2; reflexivity); exact IH1.
Qed.

Lemma count_runs_trimStart (s : jsstring) :
  count_runs true (trimStart s) = count_runs true s.
Proof.
  induction s as [|c s IH]; [reflexivity|]. simpl.
  destruct (isWhiteSpace c) eqn:Hc; [exact IH|]. simpl. rewrite Hc. reflexivity.
Qed.

Lemma count_runs_all_ws (s : jsstring) (b : bool) :
  forallb isWhiteSpace s = true -> count_runs b s = 0.
Proof.
  intros H. pose proof (proj2 (count_runs_zero s) H).
  pose proof (count_runs_flags s). destruct b; lia.
Qed.

Lemma count_runs_trimEnd (s : jsstring) (b : bool) :
  count_runs b (trimEnd s) = count_runs b s.
Proof.
  revert b. induction s as [|c s IH]; intros b; [reflexivity|]. simpl.
  destruct (trimEnd s) as [|x r] eqn:E.
  - apply trimEnd_nil in E.
    destruct (isWhiteSpace c) eqn:Hc; simpl; try rewrite Hc;
      rewrite (count_runs_all_ws s _ E); reflexivity.
  - simpl count_runs at 1. destruct (isWhiteSpace c); rewrite <- IH; reflexivity.
Qed.

(** X27.  In the browser, for a document that loads, [extractTextFromPDF]
    always returns: the number of pages, and as word count the number of
    words of the page texts, unchanged by the cleaning; a document without
    any text is not refused, it gives the empty text and 0 words.  Outside
    the browser the function throws before it looks at the document. *)
Theorem extractTextFromPDF_outcomes (pages : list (list jsstring)) :
  (forall pdf, extractTextFromPDF false pdf =
     Throw (lit "PDF extraction is only available in browser environment")) /\
  extractTextFromPDF true None =
    Throw (lit "Failed to extract text from PDF. The file may be corrupted or password-protected.") /\
  extractTextFromPDF true (Some pages) =
    Ok {| text := join_space (List.filter nonEmpty (split_ws (fullText pages)));
          pageCount := length pages;
          wordCount := tokens_spec (fullText pages) |} /\
  (trim (fullText pages) = [] ->
   extractTextFromPDF true (Some pages) =
     Ok {| text := []; pageCount := length pages; wordCount := 0 |}).
Proof.
  assert (Hcount : countWords (cleanText (fullText pages)) =
                   tokens_spec (fullText pages)).
  { rewrite countWords_tokens. unfold cleanText, tokens_spec, trim.
    rewrite removeBlankLines_collapse.
    rewrite count_runs_trimEnd, count_runs_trimStart.
    apply (proj2 (count_runs_collapse (fullText pages))). }
  assert (Hok : extractTextFromPDF true (Some pages) =
    Ok {| text := join_space (List.filter nonEmpty (split_ws (fullText pages)));
          pageCount := length pages;
          wordCount := tokens_spec (fullText pages) |}).
  { unfold extractTextFromPDF. simpl negb. cbv iota.
    rewrite Hcount, cleanText_words. reflexivity. }
  split; [intros pdf; reflexivity|]. split; [reflexivity|].
  split; [exact Hok|].
  intros Hblank. rewrite Hok.
  pose proof (proj2 (countWords_zero (fullText pages)) Hblank) as Hzero.
  rewrite countWords_tokens in Hzero. rewrite Hzero.
  assert (Hnil : List.filter nonEmpty (split_ws (fullText pages)) = []).
  { pose proof (proj2 (countWords_zero (fullText pages)) Hblank) as Hz.
    unfold countWords in Hz.
    destruct (List.filter nonEmpty (split_ws (fullText pages)));
      [reflexivity | discriminate Hz]. }
  rewrite Hnil. reflexivity.
Qed.

(** X27 on a scan without text items. *)
Lemma extractTextFromPDF_outcomes_witness :
  extractTextFromPDF true (Some MoreSamples.scanned_pages) =
  Ok {| text := []; pageCount := 2; wordCount := 0 |}.
Proof.
  exact (proj2 (proj2 (proj2 (extractTextFromPDF_outcomes
                                MoreSamples.scanned_pages))) eq_refl).
Defined.

Example extractTextFromPDF_two_pages :
  extractTextFromPDF true (Some MoreSamples.two_pages) =
  Ok {| text := lit "Hello world"; pageCount := 2; wordCount := 2 |}.
Proof. reflexivity. Qed.

End PdfFacts.

(** ** The search effect of HistoryDashboard and FileUpload.onDrop *)

Section SearchFacts.

Import HistoryDashboard HistorySearch Samples MoreSamples.

Lemma prefixb_true (needle hay : jsstring) :
  prefixb needle hay = true -> exists post, hay = needle ++ post.
Proof.
  revert hay. induction needle as [|x n IH]; intros hay H; simpl in H.
  - exists hay. reflexivity.
  - destruct hay as [|y h]; [discriminate|].
    apply andb_prop in H as [Hx Hn]. apply N.eqb_eq in Hx. subst y.
    destruct (IH h Hn) as [post ->]. exists post. reflexivity.
Qed.

Lemma includesb_true (hay needle : jsstring) :
  includesb hay needle = true <-> includes hay needle.
Proof.
  split; [|apply includes_includesb].
  induction hay as [|y h IH]; simpl; intros H.
  - rewrite orb_false_r in H. destruct (prefixb_true _ _ H) as [post E].
    exists [], post. exact E.
  - apply orb_prop in H as [H | H].
    + destruct (prefixb_true _ _ H) as [post E]. exists [], post. exact E.
    + destruct (IH H) as (pre & post & ->). exists (y :: pre), post. reflexivity.
Qed.

Lemma filter_sublist (A : Type) (f : A -> bool) (l : list A) :
  sublist (List.filter f l) l.
Proof.
  induction l as [|x l IH]; simpl; [constructor|].
  destruct (f x); [apply sublist_skip | apply sublist_cons]; exact IH.
Qed.

(** X28.  The list shown by the search is the whole history for a query
    that is empty after trimming; otherwise it holds, in the order of the
    history, exactly the items whose lower-cased file name or summary
    contains the lower-cased query as typed, surrounding spaces
    included. *)
Theorem search_results (toLowerCase : jsstring -> jsstring)
    (searchQuery : jsstring) (items : list HistoryItem) :
  (trim searchQuery = [] -> filterItems toLowerCase searchQuery items = items) /\
  sublist (filterItems toLowerCase searchQuery items) items /\
  (trim searchQuery <> [] ->
   forall item,
     In item (filterItems toLowerCase searchQuery items) <->
     In item items /\
     (includes (toLowerCase (fileName (data item))) (toLowerCase searchQuery) \/
      includes (toLowerCase (summary (data item))) (toLowerCase searchQuery))).
Proof.
  unfold filterItems. split; [|split].
  - intros ->. reflexivity.
  - destruct (streq (trim searchQuery) []); [reflexivity | apply filter_sublist].
  - intros Hne%streq_neq item. rewrite Hne, filter_In. unfold matches.
    rewrite orb_true_iff, !includesb_true. reflexivity.
Qed.

(** X28 on the two sample items: the query [NOTES] finds both, the query
    of one space shows both without looking at them. *)
Lemma search_results_witness :
  filterItems ascii_lower (lit " ") [item_a; item_b] = [item_a; item_b] /\
  In item_b (filterItems ascii_lower (lit "NOTES") [item_a; item_b]).
Proof.
  pose proof (search_results ascii_lower (lit " ") [item_a; item_b])
    as (Hblank & _ & _).
  pose proof (search_results ascii_lower (lit "NOTES") [item_a; item_b])
    as (_ & _ & Hmatch).
  split; [exact (Hblank eq_refl)|].
  apply Hmatch.
  - intros H. vm_compute in H. discriminate H.
  - split; [right; left; reflexivity|]. left.
    exists [], (lit ".txt"). reflexivity.
Defined.

(** X29.  Search and deletion commute: after a deletion the store
    accepts, the list shown for a query is the list shown before without
    the items of the deleted id, and no item of that id is shown. *)
Theorem search_after_delete (toLowerCase : jsstring -> jsstring)
    (searchQuery : jsstring) (st : State) (itemId : jsstring) :
  filterItems toLowerCase searchQuery (historyItems (deleteItem true st itemId)) =
  List.filter (fun item => negb (streq (id item) itemId))
              (filterItems toLowerCase searchQuery (historyItems st)) /\
  (forall item,
     In item (filterItems toLowerCase searchQuery
                (historyItems (deleteItem true st itemId))) ->
     id item <> itemId).
Proof.
  assert (Hcomm : forall (f g : HistoryItem -> bool) l,
            List.filter f (List.filter g l) = List.filter g (List.filter f l)).
  { intros f g l. induction l as [|x l IH]; [reflexivity|]. simpl.
    destruct (f x) eqn:Ef, (g x) eqn:Eg; simpl;
      rewrite ?Ef, ?Eg, IH; reflexivity. }
  assert (E : filterItems toLowerCase searchQuery
                (historyItems (deleteItem true st itemId)) =
              List.filter (fun item => negb (streq (id item) itemId))
                (filterItems toLowerCase searchQuery (historyItems st))).
  { unfold filterItems, deleteItem, deleteDoc. simpl.
    destruct (streq (trim searchQuery) []); [reflexivity | apply Hcomm]. }
  split; [exact E|].
  intros item Hin. rewrite E in Hin. apply filter_In in Hin as [_ H].
  apply streq_neq, negb_true_iff, H.
Qed.

End SearchFacts.

Section DropFacts.

Import FileUpload Samples MoreSamples.

(** X30.  [onDrop] passes a file on exactly when nothing was rejected and
    something was accepted, and then it is the first accepted file, which
    becomes the selected file with no error shown; a drop with a rejected
    file selects nothing, keeps the selected file and shows a message
    chosen by the first error code of the first rejection. *)
Theorem onDrop_selects (st : State) (acceptedFiles : list File.t)
    (rejectedFiles : list FileRejection) (f : File.t) :
  (snd (onDrop st acceptedFiles rejectedFiles) = Some f <->
   rejectedFiles = [] /\ exists rest, acceptedFiles = f :: rest) /\
  (snd (onDrop st acceptedFiles rejectedFiles) = Some f ->
   fst (onDrop st acceptedFiles rejectedFiles) =
   {| selectedFile := Some f; error := [] |}) /\
  (rejectedFiles <> [] ->
   snd (onDrop st acceptedFiles rejectedFiles) = None /\
   selectedFile (fst (onDrop st acceptedFiles rejectedFiles)) = selectedFile st /\
   error (fst (onDrop st acceptedFiles rejectedFiles)) <> []).
Proof.
  unfold onDrop. split; [|split].
  - destruct rejectedFiles as [|r rs].
    + destruct acceptedFiles as [|a rest]; simpl.
      * split; [discriminate | intros [_ [rest H]]; discriminate H].
      * split.
        -- intros H. injection H as ->. split; [reflexivity | exists rest; reflexivity].
        -- intros [_ [rest' H]]. injection H as -> _. reflexivity.
    + simpl. split; [discriminate | intros [H _]; discriminate H].
  - destruct rejectedFiles as [|r rs]; [|discriminate].
    destruct acceptedFiles as [|a rest]; [discriminate|].
    simpl. intros H. injection H as ->. reflexivity.
  - intros Hne. destruct rejectedFiles as [|r rs]; [contradiction Hne; reflexivity|].
    simpl. split; [reflexivity|]. split; [reflexivity|].
    destruct (errors r) as [|code codes]; [discriminate|].
    destruct (streq code (lit "file-too-large")); [discriminate|].
    destruct (streq code (lit "file-invalid-type")); discriminate.
Qed.

(** X30 on a drop of [notes.txt] together with a rejected image. *)
Lemma onDrop_selects_witness :
  snd (onDrop {| selectedFile := None; error := [] |} [hello_txt]
         [{| file := big_png; errors := [lit "file-too-large"] |}]) = None /\
  snd (onDrop {| selectedFile := None; error := [] |} [hello_txt] []) =
    Some hello_txt.
Proof.
  split.
  - apply (proj2 (proj2 (onDrop_selects {| selectedFile := None; error := [] |}
                           [hello_txt]
                           [{| file := big_png; errors := [lit "file-too-large"] |}]
                           hello_txt))).
    discriminate.
  - apply (proj1 (onDrop_selects {| selectedFile := None; error := [] |}
                    [hello_txt] [] hello_txt)).
    split; [reflexivity | exists []; reflexivity].
Defined.

End DropFacts.

(** ** Plain-text extraction, whenever a result is returned *)

Section ExtractionWhenReturned.

Import FileExtractor DocumentSummarizer UploadRoute.

(** For every plain-text file, blank ones included, whatever a path
    returns is as the specification says: the exported function, the
    inline branch of [handleFileSelect], and the route for a request
    without pre-extracted text, of whatever size. *)
Lemma plain_text_extraction_when_returned
    (mammoth : File.t -> option jsstring) (f : File.t) (data : FormData) :
  File.type f = TXT ->
  (forall r, extractTextFromFile f = Ok r ->
     as_specified (File.text f) (text r) (wordCount r)) /\
  (forall r, handleFileSelect_client f = Extracted r ->
     as_specified (File.text f) (text r) (wordCount r)) /\
  (file data = Some f -> truthy (extractedText data) = false ->
   status (POST mammoth (Some data)) = 200%Z ->
   exists returned wc,
     field "text" (POST mammoth (Some data)) = Some (VStr returned) /\
     field "wordCount" (POST mammoth (Some data)) = Some (VNum (Z.of_nat wc)) /\
     as_specified (File.buffer_utf8 f) returned wc).
Proof.
  intros Hty. split; [|split].
  - intros r Hr. destruct (extractTextFromFile_Ok_inv f r Hr) as [_ Hnb].
    rewrite (extractTextFromFile_txt f Hty Hnb) in Hr. injection Hr as <-.
    apply as_specified_cap.
  - intros r Hr.
    destruct (handleFileSelect_client_cases f) as [(_ & Hnb & E) | (_ & E)];
      rewrite E in Hr; [|discriminate Hr].
    injection Hr as <-. apply as_specified_cap_early.
  - intros Hf He Hok.
    destruct (POST_200_cases mammoth data Hok)
      as [Ht | (f' & t & Hf' & Hsz & Hnb%isBlank_false & Hsrc)]; [congruence|].
    assert (f' = f) as -> by congruence.
    assert (Ht : t = File.buffer_utf8 f).
    { destruct Hsrc as [[Hd _] | [_ <-]]; [|reflexivity].
      rewrite Hty in Hd. vm_compute in Hd. discriminate Hd. }
    subst t.
    rewrite (POST_extraction_path mammoth data f (File.buffer_utf8 f)
               He Hf Hsz (or_intror (conj Hty eq_refl))), Hnb.
    eexists _, _. split; [reflexivity|]. split; [reflexivity|].
    apply as_specified_cap.
Qed.

End ExtractionWhenReturned.
